(** * MystralNative ray tracing bindings: handle registry and marshaling

    A shallow embedding of [src/raytracing/rt_common.h] (descriptor and handle
    types, the abstract [IRTBackend] interface), of the stub backend and of
    the JavaScript bindings ([js_createGeometry], [js_createBLAS],
    [js_createTLAS], [js_updateTLAS], [js_traceRays], [js_destroy*],
    [cleanupRTBindings]) together with the properties of the handle life
    cycle that the specification states.

    Conventions.
    - [uint32_t] and [size_t] values are integers in [Z]; the wrap-around of
      [g_nextGeometryId++] and of [static_cast<uint32_t>(i)] is written out
      with [wrap32].
    - A [void*] is an integer, [0] being [nullptr]. A pointer to buffer data
      is the byte sequence it points to, [None] being [nullptr].
    - A [float] is its IEEE-754 binary32 bit pattern, which is what
      [memcpy] moves around.
    - The three [std::unordered_map<uint32_t, Handle>] tables are [gmap]s.
    - The script engine ([mystral/js/engine.h]) and the platform backend are
      interfaces: every theorem holds for all their implementations.
    - Diagnostics written to [std::cerr] are not modelled.
    - No exception is caught in rt_common.cpp. The one allocation whose
      size the script chooses, the [reserve(count)] of the creation and
      update loops, either succeeds or throws, as the [Heap] decides; the
      exception then leaves the binding ([exception_thrown]). Allocations
      of a fixed small size (a map node, a wrapper object) are taken to
      succeed. *)

From Stdlib Require Import ZArith List String Lia Bool.
From stdpp Require Import base gmap strings list fin_maps sorting.

#[local] Set Warnings "-clear-no-such-hyp".

Local Open Scope Z_scope.

(** ** Machine integers *)

(** Reduction modulo [2^32]: unsigned 32-bit arithmetic. *)
Definition wrap32 (z : Z) : Z := z mod 4294967296.

(** ** Buffers and floats *)

Definition float32 : Type := Z.

(** [0.0f] and [1.0f] as binary32 bit patterns. *)
Definition f32_zero : float32 := 0.
Definition f32_one : float32 := 1065353216. (* 0x3F800000 *)

Definition byte_at (data : list Byte.byte) (i : nat) : Z :=
  Z.of_N (Byte.to_N (nth i data Byte.x00)).

(** The [i]-th [float] of a little-endian byte buffer. *)
Definition load_f32 (data : list Byte.byte) (i : nat) : float32 :=
  Z.lor (byte_at data (4 * i))
    (Z.lor (Z.shiftl (byte_at data (4 * i + 1)) 8)
       (Z.lor (Z.shiftl (byte_at data (4 * i + 2)) 16)
          (Z.shiftl (byte_at data (4 * i + 3)) 24))).

(** ** rt_common.h: descriptors and handles *)

Record RTGeometryDesc := {
  vertices : option (list Byte.byte);
  vertexCount : Z;
  vertexStride : Z;
  vertexOffset : Z;
  indices : option (list Byte.byte);
  indexCount : Z
}.

Record RTGeometryHandle := { geometry_handle : Z; geometry_id : Z }.
Record RTBLASHandle := { blas_handle : Z; blas_id : Z }.
Record RTTLASHandle := { tlas_handle : Z; tlas_id : Z }.

Record RTTLASInstance := {
  blas : RTBLASHandle;
  transform : list float32;
  instanceId : Z;
  mask : Z;
  flags : Z
}.

Record TraceRaysOptions := {
  tlas : RTTLASHandle;
  width : Z;
  height : Z;
  outputTexture : Z;
  uniforms : option (list Byte.byte);
  uniformsSize : Z
}.

Inductive RTBackendType := BackendNone | BackendDXR | BackendVulkan | BackendMetal.

Definition getBackendName (type : RTBackendType) : string :=
  match type with
  | BackendDXR => "dxr"
  | BackendVulkan => "vulkan"
  | BackendMetal => "metal"
  | BackendNone => "none"
  end.

(** The abstract backend. An implementation is an object with private
    state [Backend]; a method takes the object and returns it updated.
    The three queries ([isSupported], [getBackendType], [getBackend])
    only read the object. *)
Class IRTBackend := {
  Backend : Type;
  isSupported : Backend -> bool;
  getBackendType : Backend -> RTBackendType;
  getBackend : Backend -> string;
  createGeometry : Backend -> RTGeometryDesc -> RTGeometryHandle * Backend;
  destroyGeometry : Backend -> RTGeometryHandle -> Backend;
  createBLAS : Backend -> list RTGeometryHandle -> RTBLASHandle * Backend;
  destroyBLAS : Backend -> RTBLASHandle -> Backend;
  createTLAS : Backend -> list RTTLASInstance -> RTTLASHandle * Backend;
  updateTLAS : Backend -> RTTLASHandle -> list RTTLASInstance -> Backend;
  destroyTLAS : Backend -> RTTLASHandle -> Backend;
  traceRays : Backend -> TraceRaysOptions -> Backend;
  (** the factory [createRTBackend()] *)
  createRTBackend : Backend
}.

(** ** The stub backend (rt_common.cpp, [StubRTBackend]) *)

Definition StubRTBackend : IRTBackend := {|
  Backend := unit;
  isSupported := fun _ => false;
  getBackendType := fun _ => BackendNone;
  getBackend := fun _ => "none"%string;
  createGeometry := fun be _ => ({| geometry_handle := 0; geometry_id := 0 |}, be);
  destroyGeometry := fun be _ => be;
  createBLAS := fun be _ => ({| blas_handle := 0; blas_id := 0 |}, be);
  destroyBLAS := fun be _ => be;
  createTLAS := fun be _ => ({| tlas_handle := 0; tlas_id := 0 |}, be);
  updateTLAS := fun be _ _ => be;
  destroyTLAS := fun be _ => be;
  traceRays := fun be _ => be;
  createRTBackend := tt
|}.

(** ** The script engine *)

(** What the bindings use of [js::Engine] to read script values, and the
    two conversions from [double] the bindings apply to [toNumber]'s
    result. The conversions are left to the implementation: C++ defines
    them by truncation for values in range only. *)
Class JSEngine := {
  JSValueHandle : Type;
  double : Type;
  getProperty : JSValueHandle -> string -> JSValueHandle;
  getPropertyIndex : JSValueHandle -> Z -> JSValueHandle;
  isUndefined : JSValueHandle -> bool;
  isObject : JSValueHandle -> bool;
  isArray : JSValueHandle -> bool;
  toNumber : JSValueHandle -> double;
  (** data pointer; the byte size is the length of the region *)
  getArrayBufferData : JSValueHandle -> option (list Byte.byte);
  getPrivateData : JSValueHandle -> Z;
  (** [static_cast<uint32_t>] and [static_cast<size_t>] of a [double] *)
  uint32_of_double : double -> Z;
  size_of_double : double -> Z
}.

(** The element types of the two vectors the bindings reserve. *)
Inductive VectorElem := ElemGeometryHandle | ElemTLASInstance.

(** The free store, as far as the bindings depend on it:
    [vector_reserve elem count] tells whether [reserve(count)] on an
    empty [std::vector] of that element type succeeds; when it does not,
    [reserve] throws ([std::length_error] or [std::bad_alloc]).
    [reserve(0)] on an empty vector allocates nothing and succeeds. *)
Class Heap := {
  vector_reserve : VectorElem -> Z -> bool;
  vector_reserve_zero : forall elem, vector_reserve elem 0 = true
}.

(** What a call of a binding delivers: a value built with the engine and
    returned to the script, or, as [exception_thrown], a C++ exception
    that leaves the binding. *)
#[local] Unset Elimination Schemes.
Inductive JSOut :=
| newNull
| newUndefined
| newBoolean (b : bool)
| newString (s : string)
| newNumber (z : Z)
| newObject (props : list (string * JSOut))
| exception_thrown.
#[local] Set Elimination Schemes.

Definition createGeometryJS (id : Z) : JSOut :=
  newObject [("_type"%string, newString "geometry"); ("_id"%string, newNumber id)].

Definition createBLASJS (id : Z) : JSOut :=
  newObject [("_type"%string, newString "blas"); ("_id"%string, newNumber id)].

Definition createTLASJS (id : Z) : JSOut :=
  newObject [("_type"%string, newString "tlas"); ("_id"%string, newNumber id)].

(** Identity fall-back of the instance transform: the four diagonal
    stores into the zero-initialised array. *)
Definition zero_transform : list float32 := repeat f32_zero 16.

Definition store_diagonal (t : list float32) : list float32 :=
  <[15%nat := f32_one]> (<[10%nat := f32_one]> (<[5%nat := f32_one]> (<[0%nat := f32_one]> t))).

(** [memcpy(inst.transform, transformData, 16 * sizeof(float))] *)
Definition memcpy_transform (data : list Byte.byte) : list float32 :=
  map (load_f32 data) (seq 0 16).

(** The 4x4 identity, column-major. *)
Definition identity_matrix : list float32 :=
  [f32_one;  f32_zero; f32_zero; f32_zero;
   f32_zero; f32_one;  f32_zero; f32_zero;
   f32_zero; f32_zero; f32_one;  f32_zero;
   f32_zero; f32_zero; f32_zero; f32_one].

Section Bindings.

Context {engine : JSEngine} {backend : IRTBackend} {heap : Heap}.

(** A call of the backend made by the bindings, with what it returned. *)
Inductive BackendCall :=
| CallCreateGeometry (desc : RTGeometryDesc) (ret : RTGeometryHandle)
| CallDestroyGeometry (h : RTGeometryHandle)
| CallCreateBLAS (geometries : list RTGeometryHandle) (ret : RTBLASHandle)
| CallDestroyBLAS (h : RTBLASHandle)
| CallCreateTLAS (instances : list RTTLASInstance) (ret : RTTLASHandle)
| CallUpdateTLAS (h : RTTLASHandle) (instances : list RTTLASInstance)
| CallDestroyTLAS (h : RTTLASHandle)
| CallTraceRays (options : TraceRaysOptions).

(** The globals of the bindings. [backend_calls] is not a global of the
    source: it records the backend methods invoked, most recent first. *)
Record RTState := {
  g_rtBackend : option Backend;
  g_nextGeometryId : Z;
  g_nextBLASId : Z;
  g_nextTLASId : Z;
  g_geometries : gmap Z RTGeometryHandle;
  g_blases : gmap Z RTBLASHandle;
  g_tlases : gmap Z RTTLASHandle;
  backend_calls : list BackendCall
}.

(** The globals as statically initialised. *)
Definition initial_state : RTState := {|
  g_rtBackend := None;
  g_nextGeometryId := 1;
  g_nextBLASId := 1;
  g_nextTLASId := 1;
  g_geometries := ∅;
  g_blases := ∅;
  g_tlases := ∅;
  backend_calls := []
|}.

(** *** Helper functions *)

(** Returns the data pointer and the value left in [*outCount]. *)
Definition extractFloat32Array (value : JSValueHandle) (outCount : Z)
  : option (list Byte.byte) * Z :=
  match getArrayBufferData value with
  | None => (None, outCount)
  | Some data =>
      let byteSize := Z.of_nat (length data) in
      if byteSize =? 0 then (None, outCount) else (Some data, byteSize / 4)
  end.

Definition extractUint32Array (value : JSValueHandle) (outCount : Z)
  : option (list Byte.byte) * Z :=
  match getArrayBufferData value with
  | None => (None, outCount)
  | Some data =>
      let byteSize := Z.of_nat (length data) in
      if byteSize =? 0 then (None, outCount) else (Some data, byteSize / 4)
  end.

Definition getGeometryId (obj : JSValueHandle) : Z :=
  let idVal := getProperty obj "_id" in
  if isUndefined idVal then 0 else uint32_of_double (toNumber idVal).

Definition getBLASId (obj : JSValueHandle) : Z :=
  let idVal := getProperty obj "_id" in
  if isUndefined idVal then 0 else uint32_of_double (toNumber idVal).

Definition getTLASId (obj : JSValueHandle) : Z :=
  let idVal := getProperty obj "_id" in
  if isUndefined idVal then 0 else uint32_of_double (toNumber idVal).

Definition log_call (c : BackendCall) (be : Backend) (st : RTState) : RTState :=
  {| g_rtBackend := Some be;
     g_nextGeometryId := g_nextGeometryId st;
     g_nextBLASId := g_nextBLASId st;
     g_nextTLASId := g_nextTLASId st;
     g_geometries := g_geometries st;
     g_blases := g_blases st;
     g_tlases := g_tlases st;
     backend_calls := c :: backend_calls st |}.

(** *** js_isSupported, js_getBackend *)

Definition js_isSupported (args : list JSValueHandle) (st : RTState) : JSOut * RTState :=
  match g_rtBackend st with
  | None => (newBoolean false, st)
  | Some be => (newBoolean (isSupported be), st)
  end.

Definition js_getBackend (args : list JSValueHandle) (st : RTState) : JSOut * RTState :=
  match g_rtBackend st with
  | None => (newString "none", st)
  | Some be => (newString (getBackend be), st)
  end.

(** *** js_createGeometry *)

(** [id = g_nextGeometryId++; handle._id = id; g_geometries[id] = handle] *)
Definition register_geometry (handle : RTGeometryHandle) (st : RTState) : Z * RTState :=
  let id := g_nextGeometryId st in
  let handle := {| geometry_handle := geometry_handle handle; geometry_id := id |} in
  (id,
   {| g_rtBackend := g_rtBackend st;
      g_nextGeometryId := wrap32 (g_nextGeometryId st + 1);
      g_nextBLASId := g_nextBLASId st;
      g_nextTLASId := g_nextTLASId st;
      g_geometries := <[id := handle]> (g_geometries st);
      g_blases := g_blases st;
      g_tlases := g_tlases st;
      backend_calls := backend_calls st |}).

Definition js_createGeometry (args : list JSValueHandle) (st : RTState) : JSOut * RTState :=
  match g_rtBackend st with
  | None => (newNull, st)
  | Some be =>
    if negb (isSupported be) then (newNull, st) else
    match args with
    | [] => (newNull, st)
    | options :: _ =>
      if negb (isObject options) then (newNull, st) else
      let verticesVal := getProperty options "vertices" in
      let '(vertices, vertexCount) := extractFloat32Array verticesVal 0 in
      match vertices with
      | None => (newNull, st)
      | Some _ =>
        if vertexCount =? 0 then (newNull, st) else
        let indicesVal := getProperty options "indices" in
        let '(indices, indexCount) :=
          if negb (isUndefined indicesVal)
          then extractUint32Array indicesVal 0
          else (None, 0) in
        let strideVal := getProperty options "vertexStride" in
        let vertexStride :=
          if isUndefined strideVal then 12 else size_of_double (toNumber strideVal) in
        let offsetVal := getProperty options "vertexOffset" in
        let vertexOffset :=
          if isUndefined offsetVal then 0 else size_of_double (toNumber offsetVal) in
        let desc := {| vertices := vertices;
                       vertexCount := vertexCount / 3;
                       vertexStride := vertexStride;
                       vertexOffset := vertexOffset;
                       indices := indices;
                       indexCount := indexCount |} in
        let '(handle, be') := createGeometry be desc in
        let st := log_call (CallCreateGeometry desc handle) be' st in
        if geometry_handle handle =? 0 then (newNull, st) else
        let '(id, st) := register_geometry handle st in
        (createGeometryJS id, st)
      end
    end
  end.

(** *** js_createBLAS *)

Definition register_blas (handle : RTBLASHandle) (st : RTState) : Z * RTState :=
  let id := g_nextBLASId st in
  let handle := {| blas_handle := blas_handle handle; blas_id := id |} in
  (id,
   {| g_rtBackend := g_rtBackend st;
      g_nextGeometryId := g_nextGeometryId st;
      g_nextBLASId := wrap32 (g_nextBLASId st + 1);
      g_nextTLASId := g_nextTLASId st;
      g_geometries := g_geometries st;
      g_blases := <[id := handle]> (g_blases st);
      g_tlases := g_tlases st;
      backend_calls := backend_calls st |}).

(** The loop collecting the geometry handles: [n] iterations remain, [i]
    is the loop index, [handles] the vector built so far. [None] is the
    early [return engine->newNull()]. The vector was reserved for the
    whole count before the loop, so [push_back] does not allocate. *)
Fixpoint collectGeometries (geometriesArr : JSValueHandle)
    (geometries : gmap Z RTGeometryHandle)
    (n : nat) (i : Z) (handles : list RTGeometryHandle)
  : option (list RTGeometryHandle) :=
  match n with
  | O => Some handles
  | S n' =>
      let geomObj := getPropertyIndex geometriesArr (wrap32 i) in
      let geomId := getGeometryId geomObj in
      match geometries !! geomId with
      | None => None
      | Some h => collectGeometries geometriesArr geometries n' (i + 1) (handles ++ [h])
      end
  end.

Definition js_createBLAS (args : list JSValueHandle) (st : RTState) : JSOut * RTState :=
  match g_rtBackend st with
  | None => (newNull, st)
  | Some be =>
    if negb (isSupported be) then (newNull, st) else
    match args with
    | [] => (newNull, st)
    | geometriesArr :: _ =>
      if negb (isArray geometriesArr) then (newNull, st) else
      let lengthVal := getProperty geometriesArr "length" in
      let count := size_of_double (toNumber lengthVal) in
      if count =? 0 then (newNull, st) else
      if negb (vector_reserve ElemGeometryHandle count) then (exception_thrown, st) else
      match collectGeometries geometriesArr (g_geometries st) (Z.to_nat count) 0 [] with
      | None => (newNull, st)
      | Some handles =>
        let '(handle, be') := createBLAS be handles in
        let st := log_call (CallCreateBLAS handles handle) be' st in
        if blas_handle handle =? 0 then (newNull, st) else
        let '(id, st) := register_blas handle st in
        (createBLASJS id, st)
      end
    end
  end.

(** *** js_createTLAS, js_updateTLAS *)

Definition register_tlas (handle : RTTLASHandle) (st : RTState) : Z * RTState :=
  let id := g_nextTLASId st in
  let handle := {| tlas_handle := tlas_handle handle; tlas_id := id |} in
  (id,
   {| g_rtBackend := g_rtBackend st;
      g_nextGeometryId := g_nextGeometryId st;
      g_nextBLASId := g_nextBLASId st;
      g_nextTLASId := wrap32 (g_nextTLASId st + 1);
      g_geometries := g_geometries st;
      g_blases := g_blases st;
      g_tlases := <[id := handle]> (g_tlases st);
      backend_calls := backend_calls st |}).

(** One iteration of the instance loop, the same text in [js_createTLAS]
    and in [js_updateTLAS]: the descriptor of [instObj], or [None] when
    its BLAS is not registered. *)
Definition marshalInstance (blases : gmap Z RTBLASHandle) (instObj : JSValueHandle)
  : option RTTLASInstance :=
  let blasObj := getProperty instObj "blas" in
  let blasId := getBLASId blasObj in
  match blases !! blasId with
  | None => None
  | Some it =>
      let transformVal := getProperty instObj "transform" in
      let '(transformData, transformCount) := extractFloat32Array transformVal 0 in
      let transform :=
        match transformData with
        | Some data =>
            if 16 <=? transformCount then memcpy_transform data
            else store_diagonal zero_transform
        | None => store_diagonal zero_transform
        end in
      let instanceIdVal := getProperty instObj "instanceId" in
      let instanceId :=
        if isUndefined instanceIdVal then 0
        else uint32_of_double (toNumber instanceIdVal) in
      Some {| blas := it;
              transform := transform;
              instanceId := instanceId;
              mask := 255;
              flags := 0 |}
  end.

Fixpoint collectInstances (instancesArr : JSValueHandle)
    (blases : gmap Z RTBLASHandle)
    (n : nat) (i : Z) (instances : list RTTLASInstance)
  : option (list RTTLASInstance) :=
  match n with
  | O => Some instances
  | S n' =>
      let instObj := getPropertyIndex instancesArr (wrap32 i) in
      match marshalInstance blases instObj with
      | None => None
      | Some inst => collectInstances instancesArr blases n' (i + 1) (instances ++ [inst])
      end
  end.

Definition js_createTLAS (args : list JSValueHandle) (st : RTState) : JSOut * RTState :=
  match g_rtBackend st with
  | None => (newNull, st)
  | Some be =>
    if negb (isSupported be) then (newNull, st) else
    match args with
    | [] => (newNull, st)
    | instancesArr :: _ =>
      if negb (isArray instancesArr) then (newNull, st) else
      let lengthVal := getProperty instancesArr "length" in
      let count := size_of_double (toNumber lengthVal) in
      if count =? 0 then (newNull, st) else
      if negb (vector_reserve ElemTLASInstance count) then (exception_thrown, st) else
      match collectInstances instancesArr (g_blases st) (Z.to_nat count) 0 [] with
      | None => (newNull, st)
      | Some instances =>
        let '(handle, be') := createTLAS be instances in
        let st := log_call (CallCreateTLAS instances handle) be' st in
        if tlas_handle handle =? 0 then (newNull, st) else
        let '(id, st) := register_tlas handle st in
        (createTLASJS id, st)
      end
    end
  end.

Definition js_updateTLAS (args : list JSValueHandle) (st : RTState) : JSOut * RTState :=
  match g_rtBackend st with
  | None => (newUndefined, st)
  | Some be =>
    if negb (isSupported be) then (newUndefined, st) else
    match args with
    | tlasObj :: instancesArr :: _ =>
      let tlasId := getTLASId tlasObj in
      match g_tlases st !! tlasId with
      | None => (newUndefined, st)
      | Some tlasIt =>
        if negb (isArray instancesArr) then (newUndefined, st) else
        let lengthVal := getProperty instancesArr "length" in
        let count := size_of_double (toNumber lengthVal) in
        if negb (vector_reserve ElemTLASInstance count) then (exception_thrown, st) else
        match collectInstances instancesArr (g_blases st) (Z.to_nat count) 0 [] with
        | None => (newUndefined, st)
        | Some instances =>
          let be' := updateTLAS be tlasIt instances in
          (newUndefined, log_call (CallUpdateTLAS tlasIt instances) be' st)
        end
      end
    | _ => (newUndefined, st)
    end
  end.

(** *** js_traceRays *)

Definition js_traceRays (args : list JSValueHandle) (st : RTState) : JSOut * RTState :=
  match g_rtBackend st with
  | None => (newUndefined, st)
  | Some be =>
    if negb (isSupported be) then (newUndefined, st) else
    match args with
    | [] => (newUndefined, st)
    | options :: _ =>
      if negb (isObject options) then (newUndefined, st) else
      let tlasObj := getProperty options "tlas" in
      let tlasId := getTLASId tlasObj in
      match g_tlases st !! tlasId with
      | None => (newUndefined, st)
      | Some tlasIt =>
        let widthVal := getProperty options "width" in
        let heightVal := getProperty options "height" in
        let width := uint32_of_double (toNumber widthVal) in
        let height := uint32_of_double (toNumber heightVal) in
        let outputTextureVal := getProperty options "outputTexture" in
        let outputTexture := getPrivateData outputTextureVal in
        let uniformsVal := getProperty options "uniforms" in
        let '(uniforms, uniformsSize) :=
          if negb (isUndefined uniformsVal)
          then (getArrayBufferData uniformsVal,
                match getArrayBufferData uniformsVal with
                | Some data => Z.of_nat (length data)
                | None => 0
                end)
          else (None, 0) in
        let traceOptions := {| tlas := tlasIt;
                               width := width;
                               height := height;
                               outputTexture := outputTexture;
                               uniforms := uniforms;
                               uniformsSize := uniformsSize |} in
        let be' := traceRays be traceOptions in
        (newUndefined, log_call (CallTraceRays traceOptions) be' st)
      end
    end
  end.

(** *** js_destroyBLAS, js_destroyTLAS, js_destroyGeometry *)

(** [if (g_rtBackend) g_rtBackend->destroyX(it->second)], as a state update *)
Definition backend_destroy (c : BackendCall) (f : Backend -> Backend) (st : RTState) : RTState :=
  match g_rtBackend st with
  | Some be => log_call c (f be) st
  | None => st
  end.

Definition erase_geometry (id : Z) (st : RTState) : RTState :=
  {| g_rtBackend := g_rtBackend st;
     g_nextGeometryId := g_nextGeometryId st;
     g_nextBLASId := g_nextBLASId st;
     g_nextTLASId := g_nextTLASId st;
     g_geometries := delete id (g_geometries st);
     g_blases := g_blases st;
     g_tlases := g_tlases st;
     backend_calls := backend_calls st |}.

Definition erase_blas (id : Z) (st : RTState) : RTState :=
  {| g_rtBackend := g_rtBackend st;
     g_nextGeometryId := g_nextGeometryId st;
     g_nextBLASId := g_nextBLASId st;
     g_nextTLASId := g_nextTLASId st;
     g_geometries := g_geometries st;
     g_blases := delete id (g_blases st);
     g_tlases := g_tlases st;
     backend_calls := backend_calls st |}.

Definition erase_tlas (id : Z) (st : RTState) : RTState :=
  {| g_rtBackend := g_rtBackend st;
     g_nextGeometryId := g_nextGeometryId st;
     g_nextBLASId := g_nextBLASId st;
     g_nextTLASId := g_nextTLASId st;
     g_geometries := g_geometries st;
     g_blases := g_blases st;
     g_tlases := delete id (g_tlases st);
     backend_calls := backend_calls st |}.

Definition js_destroyBLAS (args : list JSValueHandle) (st : RTState) : JSOut * RTState :=
  match args with
  | [] => (newUndefined, st)
  | obj :: _ =>
    let blasId := getBLASId obj in
    match g_blases st !! blasId with
    | Some it =>
        let st := backend_destroy (CallDestroyBLAS it) (fun be => destroyBLAS be it) st in
        (newUndefined, erase_blas blasId st)
    | None => (newUndefined, st)
    end
  end.

Definition js_destroyTLAS (args : list JSValueHandle) (st : RTState) : JSOut * RTState :=
  match args with
  | [] => (newUndefined, st)
  | obj :: _ =>
    let tlasId := getTLASId obj in
    match g_tlases st !! tlasId with
    | Some it =>
        let st := backend_destroy (CallDestroyTLAS it) (fun be => destroyTLAS be it) st in
        (newUndefined, erase_tlas tlasId st)
    | None => (newUndefined, st)
    end
  end.

Definition js_destroyGeometry (args : list JSValueHandle) (st : RTState) : JSOut * RTState :=
  match args with
  | [] => (newUndefined, st)
  | obj :: _ =>
    let geomId := getGeometryId obj in
    match g_geometries st !! geomId with
    | Some it =>
        let st := backend_destroy (CallDestroyGeometry it) (fun be => destroyGeometry be it) st in
        (newUndefined, erase_geometry geomId st)
    | None => (newUndefined, st)
    end
  end.

(** *** initializeRTBindings, cleanupRTBindings *)

(** With a non-null engine: installs the backend the factory returns. *)
Definition initializeRTBindings (st : RTState) : RTState :=
  {| g_rtBackend := Some createRTBackend;
     g_nextGeometryId := g_nextGeometryId st;
     g_nextBLASId := g_nextBLASId st;
     g_nextTLASId := g_nextTLASId st;
     g_geometries := g_geometries st;
     g_blases := g_blases st;
     g_tlases := g_tlases st;
     backend_calls := backend_calls st |}.

(** Destroys every tracked resource (TLASes, then BLASes, then
    geometries, each table in its iteration order), clears the tables,
    drops the backend and resets the three counters. *)
Definition cleanupRTBindings (st : RTState) : RTState :=
  let st := foldl (fun st kv =>
                     backend_destroy (CallDestroyTLAS kv.2) (fun be => destroyTLAS be kv.2) st)
                  st (map_to_list (g_tlases st)) in
  let st := foldl (fun st kv =>
                     backend_destroy (CallDestroyBLAS kv.2) (fun be => destroyBLAS be kv.2) st)
                  st (map_to_list (g_blases st)) in
  let st := foldl (fun st kv =>
                     backend_destroy (CallDestroyGeometry kv.2) (fun be => destroyGeometry be kv.2) st)
                  st (map_to_list (g_geometries st)) in
  {| g_rtBackend := None;
     g_nextGeometryId := 1;
     g_nextBLASId := 1;
     g_nextTLASId := 1;
     g_geometries := ∅;
     g_blases := ∅;
     g_tlases := ∅;
     backend_calls := backend_calls st |}.

(** *** Call sequences *)

Inductive ResourceKind := Geometry | BLAS | TLAS.

(** An invocation of one of the [mystralRT] methods by the script. *)
Inductive ScriptCall :=
| RT_isSupported (args : list JSValueHandle)
| RT_getBackend (args : list JSValueHandle)
| RT_createGeometry (args : list JSValueHandle)
| RT_createBLAS (args : list JSValueHandle)
| RT_createTLAS (args : list JSValueHandle)
| RT_updateTLAS (args : list JSValueHandle)
| RT_traceRays (args : list JSValueHandle)
| RT_destroyBLAS (args : list JSValueHandle)
| RT_destroyTLAS (args : list JSValueHandle)
| RT_destroyGeometry (args : list JSValueHandle).

Definition invoke (c : ScriptCall) (st : RTState) : JSOut * RTState :=
  match c with
  | RT_isSupported args => js_isSupported args st
  | RT_getBackend args => js_getBackend args st
  | RT_createGeometry args => js_createGeometry args st
  | RT_createBLAS args => js_createBLAS args st
  | RT_createTLAS args => js_createTLAS args st
  | RT_updateTLAS args => js_updateTLAS args st
  | RT_traceRays args => js_traceRays args st
  | RT_destroyBLAS args => js_destroyBLAS args st
  | RT_destroyTLAS args => js_destroyTLAS args st
  | RT_destroyGeometry args => js_destroyGeometry args st
  end.

(** Runs the calls in order; returns what each call returned, and the
    final state. A call that throws leaves the state as it was; whether
    the script goes on after it is the engine's business, and a script
    that stops there has run a prefix of the calls, which is a run too. *)
Fixpoint run (calls : list ScriptCall) (st : RTState) : list JSOut * RTState :=
  match calls with
  | [] => ([], st)
  | c :: calls =>
      let '(out, st) := invoke c st in
      let '(outs, st) := run calls st in
      (out :: outs, st)
  end.

(** The [_id] of a wrapper object built by [createGeometryJS],
    [createBLASJS] or [createTLASJS]. *)
Definition wrapper_id (out : JSOut) : option Z :=
  match out with
  | newObject [(_, newString _); (_, newNumber id)] => Some id
  | _ => None
  end.

(** The id a call allocated for resource kind [k], if it created one. *)
Definition allocated (k : ResourceKind) (c : ScriptCall) (out : JSOut) : option Z :=
  match k, c with
  | Geometry, RT_createGeometry _ => wrapper_id out
  | BLAS, RT_createBLAS _ => wrapper_id out
  | TLAS, RT_createTLAS _ => wrapper_id out
  | _, _ => None
  end.

Fixpoint allocated_ids (k : ResourceKind) (calls : list ScriptCall) (outs : list JSOut) : list Z :=
  match calls, outs with
  | c :: calls, out :: outs =>
      match allocated k c out with
      | Some id => id :: allocated_ids k calls outs
      | None => allocated_ids k calls outs
      end
  | _, _ => []
  end.

Definition next_id (k : ResourceKind) (st : RTState) : Z :=
  match k with
  | Geometry => g_nextGeometryId st
  | BLAS => g_nextBLASId st
  | TLAS => g_nextTLASId st
  end.

(** The ids registered for kind [k]. *)
Definition registered (k : ResourceKind) (st : RTState) : gset Z :=
  match k with
  | Geometry => dom (g_geometries st)
  | BLAS => dom (g_blases st)
  | TLAS => dom (g_tlases st)
  end.


(** The calls that create nothing either leave the state alone, or log
    one backend call, or erase one entry of one table. *)
Inductive quiet_step (st : RTState) : RTState -> Prop :=
| quiet_same : quiet_step st st
| quiet_log c be' : quiet_step st (log_call c be' st)
| quiet_erase_geometry id st1 :
    quiet_step st st1 -> quiet_step st (erase_geometry id st1)
| quiet_erase_blas id st1 :
    quiet_step st st1 -> quiet_step st (erase_blas id st1)
| quiet_erase_tlas id st1 :
    quiet_step st st1 -> quiet_step st (erase_tlas id st1).

(** The state a process starts from, and that [cleanupRTBindings]
    restores: counters at 1, tables empty. *)
Definition clean_slate (st : RTState) : Prop :=
  forall k, next_id k st = 1 /\ registered k st = ∅.

(** Every registered handle carries the id it is registered under. *)
Definition ids_match_keys (st : RTState) : Prop :=
  (forall id h, g_geometries st !! id = Some h -> geometry_id h = id) /\
  (forall id h, g_blases st !! id = Some h -> blas_id h = id) /\
  (forall id h, g_tlases st !! id = Some h -> tlas_id h = id).

(** The array length the creation loops iterate up to. *)
Definition reported_length (arr : JSValueHandle) : Z :=
  size_of_double (toNumber (getProperty arr "length")).


End Bindings.

(** ** A reference engine and a backend that always succeeds

    Used to run the bindings on concrete script values. *)

#[local] Unset Elimination Schemes.
Inductive ScriptValue :=
| SUndefined
| SNull
| SNumber (z : Z)
| SString (s : string)
| SObject (props : list (string * ScriptValue))
| SArray (elems : list ScriptValue)
| SHoles (len : Z)
| SBuffer (data : list Byte.byte).
#[local] Set Elimination Schemes.

Fixpoint lookup_prop {A : Type} (d : A) (k : string) (props : list (string * A)) : A :=
  match props with
  | [] => d
  | (k', v) :: props => if String.eqb k k' then v else lookup_prop d k props
  end.

Definition ReferenceEngine : JSEngine := {|
  JSValueHandle := ScriptValue;
  double := Z;
  getProperty := fun v k =>
    match v with
    | SObject props => lookup_prop SUndefined k props
    | SArray elems =>
        if String.eqb k "length" then SNumber (Z.of_nat (length elems)) else SUndefined
    | SHoles n => if String.eqb k "length" then SNumber n else SUndefined
    | _ => SUndefined
    end;
  getPropertyIndex := fun v i =>
    match v with
    | SArray elems => nth (Z.to_nat i) elems SUndefined
    | _ => SUndefined
    end;
  isUndefined := fun v => match v with SUndefined => true | _ => false end;
  isObject := fun v =>
    match v with SObject _ | SArray _ | SHoles _ | SBuffer _ => true | _ => false end;
  isArray := fun v => match v with SArray _ | SHoles _ => true | _ => false end;
  toNumber := fun v => match v with SNumber z => z | _ => 0 end;
  getArrayBufferData := fun v => match v with SBuffer data => Some data | _ => None end;
  getPrivateData := fun _ => 0;
  uint32_of_double := wrap32;
  size_of_double := fun z => z mod 18446744073709551616
|}.

(** A free store with room for vectors of up to 2^24 elements. *)
Definition BoundedHeap : Heap := {|
  vector_reserve := fun _ count => count <=? 16777216;
  vector_reserve_zero := fun _ => eq_refl
|}.

(** A backend on which every creation succeeds: its state counts the
    resources created so far, and the native pointer it hands out is that
    count plus one. *)
Definition CountingBackend : IRTBackend := {|
  Backend := N;
  isSupported := fun _ => true;
  getBackendType := fun _ => BackendVulkan;
  getBackend := fun _ => "vulkan"%string;
  createGeometry := fun be _ =>
    ({| geometry_handle := Z.pos (N.succ_pos be); geometry_id := 0 |}, N.succ be);
  destroyGeometry := fun be _ => be;
  createBLAS := fun be _ =>
    ({| blas_handle := Z.pos (N.succ_pos be); blas_id := 0 |}, N.succ be);
  destroyBLAS := fun be _ => be;
  createTLAS := fun be _ =>
    ({| tlas_handle := Z.pos (N.succ_pos be); tlas_id := 0 |}, N.succ be);
  updateTLAS := fun be _ _ => be;
  destroyTLAS := fun be _ => be;
  traceRays := fun be _ => be;
  createRTBackend := 0%N
|}.

(** *** Script values used below

    [SHoles n] is [new Array(n)]: an array of reported length [n] all of
    whose elements are holes. *)

(** A [Float32Array] of nine floats: one triangle. *)
Definition triangle_vertices : ScriptValue := SBuffer (repeat Byte.x00 36).

(** [{vertices: triangle}] *)
Definition geometry_options : ScriptValue :=
  SObject [("vertices"%string, triangle_vertices)].

(** [{vertices: triangle, indices: new Uint32Array(0)}] *)
Definition geometry_options_empty_indices : ScriptValue :=
  SObject [("vertices"%string, triangle_vertices); ("indices"%string, SBuffer [])].

(** The wrapper object the bindings return, as a script value. *)
Definition handle_object (type : string) (id : Z) : ScriptValue :=
  SObject [("_type"%string, SString type); ("_id"%string, SNumber id)].

(** [{blas: <blas 1>, mask: 0x0F, flags: 1}] *)
Definition instance_with_mask : ScriptValue :=
  SObject [("blas"%string, handle_object "blas" 1);
           ("mask"%string, SNumber 15); ("flags"%string, SNumber 1)].

(** [{blas: <blas 1>, transform: new Float32Array(4), instanceId: 7}] *)
Definition instance_short_transform : ScriptValue :=
  SObject [("blas"%string, handle_object "blas" 1);
           ("transform"%string, SBuffer (repeat Byte.xff 16));
           ("instanceId"%string, SNumber 7)].

(** *** States used below *)

(** The bindings initialised over the stub backend. *)
Definition stub_started : @RTState StubRTBackend :=
  initializeRTBindings (backend := StubRTBackend) initial_state.

(** The bindings initialised over the counting backend. *)
Definition started : @RTState CountingBackend :=
  initializeRTBindings (backend := CountingBackend) initial_state.

(** [createGeometry({vertices: triangle})] *)
Definition create_triangle : @ScriptCall ReferenceEngine :=
  RT_createGeometry (engine := ReferenceEngine) [geometry_options].

(** One geometry and one BLAS built from it, both with id 1. *)
Definition scene_calls : list (@ScriptCall ReferenceEngine) :=
  [create_triangle;
   RT_createBLAS (engine := ReferenceEngine) [SArray [handle_object "geometry" 1]]].

Definition scene : @RTState CountingBackend :=
  (run (engine := ReferenceEngine) (backend := CountingBackend) (heap := BoundedHeap) scene_calls started).2.

(** The example scenario of the specification: a geometry, a BLAS over
    it, the geometry destroyed, then a TLAS with one instance
    [{blas: <blas 1>, instanceId: 7}]. *)
Definition scenario_calls : list (@ScriptCall ReferenceEngine) :=
  [RT_createGeometry (engine := ReferenceEngine)
     [SObject [("vertices"%string, triangle_vertices);
               ("indices"%string, SBuffer (repeat Byte.x00 12))]];
   RT_createBLAS (engine := ReferenceEngine) [SArray [handle_object "geometry" 1]];
   RT_destroyGeometry (engine := ReferenceEngine) [handle_object "geometry" 1];
   RT_createTLAS (engine := ReferenceEngine)
     [SArray [SObject [("blas"%string, handle_object "blas" 1);
                       ("instanceId"%string, SNumber 7)]]]].

(** The state after one [createGeometry] of a triangle. *)
Definition one_geometry : @RTState CountingBackend :=
  (run (engine := ReferenceEngine) (backend := CountingBackend) (heap := BoundedHeap) [create_triangle] started).2.

(** The state at the end of the scenario: no geometry, BLAS 1, TLAS 1. *)
Definition scenario_state : @RTState CountingBackend :=
  (run (engine := ReferenceEngine) (backend := CountingBackend) (heap := BoundedHeap) scenario_calls started).2.

(** [{blas: <blas 1>, transform: new Float32Array(17)}] *)
Definition instance_long_transform : ScriptValue :=
  SObject [("blas"%string, handle_object "blas" 1);
           ("transform"%string, SBuffer (repeat Byte.x01 68))].

(** *** examples/rt-atmosphere.js: createSphereGeometry

    The loop counters and the indices are integers (exact as script
    numbers far beyond the sizes in use); the vertex coordinates are
    floating-point values, produced here by a function [coord] of the
    ring and segment numbers that stands for the trigonometric
    expressions of the script. *)





(** ** Properties of the bindings *)

Section Properties.

Context {engine : JSEngine} {backend : IRTBackend} {heap : Heap}.

(** *** The instance and geometry loops *)

Lemma marshalInstance_None (blases : gmap Z RTBLASHandle) (instObj : JSValueHandle) :
  marshalInstance blases instObj = None <->
  blases !! getBLASId (getProperty instObj "blas") = None.
Proof.
  unfold marshalInstance.
  destruct (blases !! getBLASId (getProperty instObj "blas")) as [it|] eqn:Hit.
  - destruct (extractFloat32Array _ 0) as [d c]. split; discriminate.
  - split; reflexivity.
Qed.



(** *** Creation without a usable backend *)

(** C1. When the backend is absent or its [isSupported()] is false,
    [createGeometry], [createBLAS] and [createTLAS] return null whatever
    their arguments, and leave the whole state as it was: no table gains
    an entry. *)
Theorem create_unavailable_returns_null (args : list JSValueHandle) (st : RTState) :
  (g_rtBackend st = None \/
   exists be, g_rtBackend st = Some be /\ isSupported be = false) ->
  js_createGeometry args st = (newNull, st) /\
  js_createBLAS args st = (newNull, st) /\
  js_createTLAS args st = (newNull, st).
Proof.
  intros [Hnone | (be & Hbe & Hsup)].
  - unfold js_createGeometry, js_createBLAS, js_createTLAS.
    rewrite Hnone. auto.
  - unfold js_createGeometry, js_createBLAS, js_createTLAS.
    rewrite Hbe, Hsup. auto.
Qed.

(** *** Unresolved BLAS references *)




(** *** Destruction *)

(** C8. Each destroy operation is idempotent. Destroying the same handle
    object a second time returns undefined and changes nothing, so two
    destroys end in the state one destroy ends in; and a destroy of an id
    that is not registered (never issued, or destroyed already) returns
    undefined and changes nothing. *)
Theorem destroy_idempotent (args : list JSValueHandle) (st : RTState) :
  (js_destroyGeometry args (js_destroyGeometry args st).2
     = (newUndefined, (js_destroyGeometry args st).2) /\
   js_destroyBLAS args (js_destroyBLAS args st).2
     = (newUndefined, (js_destroyBLAS args st).2) /\
   js_destroyTLAS args (js_destroyTLAS args st).2
     = (newUndefined, (js_destroyTLAS args st).2)) /\
  (forall obj rest, args = obj :: rest ->
     (g_geometries st !! getGeometryId obj = None ->
        js_destroyGeometry args st = (newUndefined, st)) /\
     (g_blases st !! getBLASId obj = None ->
        js_destroyBLAS args st = (newUndefined, st)) /\
     (g_tlases st !! getTLASId obj = None ->
        js_destroyTLAS args st = (newUndefined, st))).
Proof.
  split.
  - destruct args as [|obj rest]; [auto|].
    unfold js_destroyGeometry, js_destroyBLAS, js_destroyTLAS.
    repeat split.
    + destruct (g_geometries st !! getGeometryId obj) as [it|] eqn:Hit; cbn.
      * unfold backend_destroy. destruct (g_rtBackend st); cbn;
          rewrite lookup_delete_eq; reflexivity.
      * rewrite Hit. reflexivity.
    + destruct (g_blases st !! getBLASId obj) as [it|] eqn:Hit; cbn.
      * unfold backend_destroy. destruct (g_rtBackend st); cbn;
          rewrite lookup_delete_eq; reflexivity.
      * rewrite Hit. reflexivity.
    + destruct (g_tlases st !! getTLASId obj) as [it|] eqn:Hit; cbn.
      * unfold backend_destroy. destruct (g_rtBackend st); cbn;
          rewrite lookup_delete_eq; reflexivity.
      * rewrite Hit. reflexivity.
  - intros obj rest ->.
    unfold js_destroyGeometry, js_destroyBLAS, js_destroyTLAS.
    repeat split; intros ->; reflexivity.
Qed.

(** C9. A destroy operation touches its own table only:
    [destroyGeometry] leaves the BLAS table, the TLAS table and the three
    id counters as they were, and likewise [destroyBLAS] and
    [destroyTLAS] for the tables of the other two kinds. *)
Theorem destroy_frame (args : list JSValueHandle) (st : RTState) :
  (let st' := (js_destroyGeometry args st).2 in
   g_blases st' = g_blases st /\ g_tlases st' = g_tlases st /\
   g_nextGeometryId st' = g_nextGeometryId st /\
   g_nextBLASId st' = g_nextBLASId st /\
   g_nextTLASId st' = g_nextTLASId st) /\
  (let st' := (js_destroyBLAS args st).2 in
   g_geometries st' = g_geometries st /\ g_tlases st' = g_tlases st /\
   g_nextGeometryId st' = g_nextGeometryId st /\
   g_nextBLASId st' = g_nextBLASId st /\
   g_nextTLASId st' = g_nextTLASId st) /\
  (let st' := (js_destroyTLAS args st).2 in
   g_geometries st' = g_geometries st /\ g_blases st' = g_blases st /\
   g_nextGeometryId st' = g_nextGeometryId st /\
   g_nextBLASId st' = g_nextBLASId st /\
   g_nextTLASId st' = g_nextTLASId st).
Proof.
  unfold js_destroyGeometry, js_destroyBLAS, js_destroyTLAS, backend_destroy.
  destruct args as [|obj rest]; cbn; [tauto|].
  repeat split;
    repeat match goal with
           | |- context [match ?x with _ => _ end] => destruct x
           end; reflexivity.
Qed.

(** *** What reaches the backend from the instance loop *)

Lemma collectInstances_spec (arr : JSValueHandle) (blases : gmap Z RTBLASHandle)
    (n : nat) (start : Z) (acc insts : list RTTLASInstance) :
  collectInstances arr blases n start acc = Some insts ->
  exists new, insts = acc ++ new /\ length new = n /\
    forall (k : nat) inst, new !! k = Some inst ->
      marshalInstance blases (getPropertyIndex arr (wrap32 (start + Z.of_nat k))) = Some inst.
Proof.
  revert start acc.
  induction n as [|n IH]; intros start acc H; cbn [collectInstances] in H.
  - injection H as <-. exists []. rewrite app_nil_r.
    repeat split. intros k inst Hk. rewrite lookup_nil in Hk. discriminate.
  - destruct (marshalInstance blases (getPropertyIndex arr (wrap32 start))) as [i0|] eqn:H0;
      [|discriminate].
    destruct (IH _ _ H) as (new & -> & Hlen & Hall).
    exists (i0 :: new). rewrite <- app_assoc. repeat split.
    + cbn. rewrite Hlen. reflexivity.
    + intros [|k] inst Hk; cbn in Hk.
      * injection Hk as <-. rewrite Z.add_0_r. exact H0.
      * specialize (Hall k inst Hk).
        replace (start + Z.of_nat (S k)) with (start + 1 + Z.of_nat k) by lia.
        exact Hall.
Qed.

Lemma list_not_cons_self {A : Type} (x : A) (l : list A) : l <> x :: l.
Proof.
  intros H. apply (f_equal (@length A)) in H. cbn in H. lia.
Qed.

Lemma createTLAS_passes_marshaled (arr : JSValueHandle) (rest : list JSValueHandle)
    (st : RTState) (insts : list RTTLASInstance) (ret : RTTLASHandle) :
  backend_calls (js_createTLAS (arr :: rest) st).2
    = CallCreateTLAS insts ret :: backend_calls st ->
  forall (k : nat) inst, insts !! k = Some inst ->
    marshalInstance (g_blases st) (getPropertyIndex arr (wrap32 (Z.of_nat k))) = Some inst.
Proof.
  unfold js_createTLAS.
  destruct (g_rtBackend st) as [be|];
    [|intros H; contradiction (list_not_cons_self _ _ H)].
  destruct (negb (isSupported be));
    [intros H; contradiction (list_not_cons_self _ _ H)|].
  destruct (negb (isArray arr));
    [intros H; contradiction (list_not_cons_self _ _ H)|].
  destruct (_ =? 0);
    [intros H; contradiction (list_not_cons_self _ _ H)|].
  destruct (negb (vector_reserve ElemTLASInstance _));
    [intros H; contradiction (list_not_cons_self _ _ H)|].
  destruct (collectInstances arr (g_blases st) _ 0 []) as [instances|] eqn:Hc;
    [|intros H; contradiction (list_not_cons_self _ _ H)].
  destruct (createTLAS be instances) as [handle be'].
  intros H k inst Hk.
  assert (insts = instances) as ->.
  { destruct (tlas_handle handle =? 0); cbn in H; congruence. }
  destruct (collectInstances_spec _ _ _ _ _ _ Hc) as (new & Hnew & _ & Hall).
  cbn in Hnew. subst new. apply (Hall k inst Hk).
Qed.

Lemma updateTLAS_passes_marshaled (tlasObj arr : JSValueHandle) (rest : list JSValueHandle)
    (st : RTState) (insts : list RTTLASInstance) (h : RTTLASHandle) :
  backend_calls (js_updateTLAS (tlasObj :: arr :: rest) st).2
    = CallUpdateTLAS h insts :: backend_calls st ->
  forall (k : nat) inst, insts !! k = Some inst ->
    marshalInstance (g_blases st) (getPropertyIndex arr (wrap32 (Z.of_nat k))) = Some inst.
Proof.
  unfold js_updateTLAS.
  destruct (g_rtBackend st) as [be|];
    [|intros H; contradiction (list_not_cons_self _ _ H)].
  destruct (negb (isSupported be));
    [intros H; contradiction (list_not_cons_self _ _ H)|].
  destruct (g_tlases st !! getTLASId tlasObj) as [tlasIt|];
    [|intros H; contradiction (list_not_cons_self _ _ H)].
  destruct (negb (isArray arr));
    [intros H; contradiction (list_not_cons_self _ _ H)|].
  destruct (negb (vector_reserve ElemTLASInstance _));
    [intros H; contradiction (list_not_cons_self _ _ H)|].
  destruct (collectInstances arr (g_blases st) _ 0 []) as [instances|] eqn:Hc;
    [|intros H; contradiction (list_not_cons_self _ _ H)].
  intros H k inst Hk. cbn in H.
  assert (insts = instances) as -> by congruence.
  destruct (collectInstances_spec _ _ _ _ _ _ Hc) as (new & Hnew & _ & Hall).
  cbn in Hnew. subst new. apply (Hall k inst Hk).
Qed.

(** The three optional fields of one marshaled instance. *)
Lemma marshalInstance_fields (blases : gmap Z RTBLASHandle) (instObj : JSValueHandle)
    (inst : RTTLASInstance) :
  marshalInstance blases instObj = Some inst ->
  instanceId inst
    = (if isUndefined (getProperty instObj "instanceId") then 0
       else uint32_of_double (toNumber (getProperty instObj "instanceId"))) /\
  mask inst = 255 /\ flags inst = 0.
Proof.
  unfold marshalInstance.
  destruct (blases !! _) as [it|]; [|discriminate].
  destruct (extractFloat32Array _ 0) as [d c].
  intros H. injection H as <-. cbn. auto.
Qed.



(** C3 (amended). Of the three optional instance fields, only
    [instanceId] is read from the script object: it is 0 when the field is
    undefined and the field's value converted to [uint32_t] otherwise. The
    [mask] and [flags] of every instance descriptor that [createTLAS] or
    [updateTLAS] passes to the backend are 0xFF and 0, whatever the script
    object holds. *)
Theorem instance_optional_fields
    (tlasObj arr : JSValueHandle) (rest : list JSValueHandle) (st : RTState)
    (insts : list RTTLASInstance) (ret h : RTTLASHandle) :
  backend_calls (js_createTLAS (arr :: rest) st).2
    = CallCreateTLAS insts ret :: backend_calls st \/
  backend_calls (js_updateTLAS (tlasObj :: arr :: rest) st).2
    = CallUpdateTLAS h insts :: backend_calls st ->
  forall (k : nat) inst, insts !! k = Some inst ->
    let instObj := getPropertyIndex arr (wrap32 (Z.of_nat k)) in
    instanceId inst
      = (if isUndefined (getProperty instObj "instanceId") then 0
         else uint32_of_double (toNumber (getProperty instObj "instanceId"))) /\
    mask inst = 255 /\ flags inst = 0.
Proof.
  intros Hcall k inst Hk instObj.
  apply (marshalInstance_fields (g_blases st)).
  destruct Hcall as [Hc | Hu].
  - exact (createTLAS_passes_marshaled _ _ _ _ _ Hc k inst Hk).
  - exact (updateTLAS_passes_marshaled _ _ _ _ _ _ Hu k inst Hk).
Qed.


(** *** Buffer extraction in createGeometry *)

(** C7 (amended). [createGeometry] fails and returns null when the
    extraction of the required [vertices] buffer yields a null pointer or
    a zero byte length. A failed extraction of the optional [indices]
    buffer does not fail the call: with a usable backend, an options
    object and good vertices, the backend is called with a non-indexed
    descriptor ([indices] null, [indexCount] 0) and the result is decided
    by what the backend returns. *)
Theorem createGeometry_buffer_extraction
    (options : JSValueHandle) (rest : list JSValueHandle) (st : RTState) :
  (match getArrayBufferData (getProperty options "vertices") with
   | None => True
   | Some data => length data = 0%nat
   end ->
   js_createGeometry (options :: rest) st = (newNull, st)) /\
  (forall be vdata,
     g_rtBackend st = Some be -> isSupported be = true -> isObject options = true ->
     getArrayBufferData (getProperty options "vertices") = Some vdata ->
     Z.of_nat (length vdata) / 4 <> 0 ->
     isUndefined (getProperty options "indices") = false ->
     match getArrayBufferData (getProperty options "indices") with
     | None => True
     | Some data => length data = 0%nat
     end ->
     exists desc,
       let ret := (createGeometry be desc).1 in
       backend_calls (js_createGeometry (options :: rest) st).2
         = CallCreateGeometry desc ret :: backend_calls st /\
       vertices desc = Some vdata /\ indices desc = None /\ indexCount desc = 0 /\
       (js_createGeometry (options :: rest) st).1
         = if geometry_handle ret =? 0 then newNull
           else createGeometryJS (g_nextGeometryId st)).
Proof.
  split.
  - intros Hv. unfold js_createGeometry, extractFloat32Array.
    destruct (g_rtBackend st) as [be|]; [|reflexivity].
    destruct (negb (isSupported be)); [reflexivity|].
    destruct (negb (isObject options)); [reflexivity|].
    destruct (getArrayBufferData (getProperty options "vertices")) as [data|];
      [|reflexivity].
    rewrite Hv. reflexivity.
  - intros be vdata Hbe Hsup Hobj Hv Hcount Hpresent Hidx.
    unfold js_createGeometry, extractFloat32Array, extractUint32Array.
    rewrite Hbe, Hsup, Hobj, Hv, Hpresent. cbn [negb].
    assert ((Z.of_nat (length vdata) =? 0) = false) as ->.
    { apply Z.eqb_neq. intros E. rewrite E in Hcount. apply Hcount. reflexivity. }
    apply Z.eqb_neq in Hcount. rewrite Hcount.
    assert ((match getArrayBufferData (getProperty options "indices") with
             | Some data =>
                 if Z.of_nat (length data) =? 0 then (None, 0)
                 else (Some data, Z.of_nat (length data) / 4)
             | None => (None, 0)
             end) = (@None (list Byte.byte), 0)) as ->.
    { destruct (getArrayBufferData (getProperty options "indices")) as [data|];
        [rewrite Hidx|]; reflexivity. }
    match goal with
    | |- context [createGeometry be ?d] => exists d; set (desc := d)
    end.
    cbn zeta.
    destruct (createGeometry be desc) as [handle be'] eqn:Hcall. cbn [fst].
    destruct (geometry_handle handle =? 0); cbn; auto.
Qed.

(** *** The shape of a creation call *)

(** A creation call ends in one of these ways: the backend returned a
    non-null pointer and the handle was registered; the backend returned
    a null pointer; the backend was not called and null is returned; or
    (for a BLAS or a TLAS) the reservation failed and its exception
    leaves the binding, the backend not called either. *)
Lemma js_createGeometry_shape (args : list JSValueHandle) (st : RTState) :
  (exists desc ret be',
     geometry_handle ret <> 0 /\
     js_createGeometry args st
       = (createGeometryJS (g_nextGeometryId st),
          (register_geometry ret (log_call (CallCreateGeometry desc ret) be' st)).2)) \/
  (exists desc ret be',
     geometry_handle ret = 0 /\
     js_createGeometry args st = (newNull, log_call (CallCreateGeometry desc ret) be' st)) \/
  js_createGeometry args st = (newNull, st).
Proof.
  unfold js_createGeometry.
  destruct (g_rtBackend st) as [be|]; [|auto].
  destruct (negb (isSupported be)); [auto|].
  destruct args as [|options rest]; [auto|].
  destruct (negb (isObject options)); [auto|].
  destruct (extractFloat32Array _ 0) as [[vdata|] vcount]; [|auto].
  destruct (vcount =? 0); [auto|].
  destruct (if negb (isUndefined (getProperty options "indices")) then _ else _)
    as [idata icount].
  match goal with
  | |- context [createGeometry be ?d] => set (desc := d)
  end.
  destruct (createGeometry be desc) as [handle be'].
  destruct (geometry_handle handle =? 0) eqn:Hnull.
  - right. left. exists desc, handle, be'. split; [|reflexivity].
    apply Z.eqb_eq. exact Hnull.
  - left. exists desc, handle, be'. split; [|reflexivity].
    apply Z.eqb_neq. exact Hnull.
Qed.

Lemma js_createBLAS_shape (args : list JSValueHandle) (st : RTState) :
  (exists geoms ret be',
     blas_handle ret <> 0 /\
     js_createBLAS args st
       = (createBLASJS (g_nextBLASId st),
          (register_blas ret (log_call (CallCreateBLAS geoms ret) be' st)).2)) \/
  (exists geoms ret be',
     blas_handle ret = 0 /\
     js_createBLAS args st = (newNull, log_call (CallCreateBLAS geoms ret) be' st)) \/
  js_createBLAS args st = (newNull, st) \/
  js_createBLAS args st = (exception_thrown, st).
Proof.
  unfold js_createBLAS.
  destruct (g_rtBackend st) as [be|]; [|auto].
  destruct (negb (isSupported be)); [auto|].
  destruct args as [|arr rest]; [auto|].
  destruct (negb (isArray arr)); [auto|].
  destruct (_ =? 0); [auto|].
  destruct (negb (vector_reserve ElemGeometryHandle _)); [auto|].
  destruct (collectGeometries arr (g_geometries st) _ 0 []) as [handles|]; [|auto].
  destruct (createBLAS be handles) as [handle be'].
  destruct (blas_handle handle =? 0) eqn:Hnull.
  - right. left. exists handles, handle, be'. split; [|reflexivity].
    apply Z.eqb_eq. exact Hnull.
  - left. exists handles, handle, be'. split; [|reflexivity].
    apply Z.eqb_neq. exact Hnull.
Qed.

Lemma js_createTLAS_shape (args : list JSValueHandle) (st : RTState) :
  (exists insts ret be',
     tlas_handle ret <> 0 /\
     js_createTLAS args st
       = (createTLASJS (g_nextTLASId st),
          (register_tlas ret (log_call (CallCreateTLAS insts ret) be' st)).2)) \/
  (exists insts ret be',
     tlas_handle ret = 0 /\
     js_createTLAS args st = (newNull, log_call (CallCreateTLAS insts ret) be' st)) \/
  js_createTLAS args st = (newNull, st) \/
  js_createTLAS args st = (exception_thrown, st).
Proof.
  unfold js_createTLAS.
  destruct (g_rtBackend st) as [be|]; [|auto].
  destruct (negb (isSupported be)); [auto|].
  destruct args as [|arr rest]; [auto|].
  destruct (negb (isArray arr)); [auto|].
  destruct (_ =? 0); [auto|].
  destruct (negb (vector_reserve ElemTLASInstance _)); [auto|].
  destruct (collectInstances arr (g_blases st) _ 0 []) as [insts|]; [|auto].
  destruct (createTLAS be insts) as [handle be'].
  destruct (tlas_handle handle =? 0) eqn:Hnull.
  - right. left. exists insts, handle, be'. split; [|reflexivity].
    apply Z.eqb_eq. exact Hnull.
  - left. exists insts, handle, be'. split; [|reflexivity].
    apply Z.eqb_neq. exact Hnull.
Qed.

Lemma backend_destroy_quiet c f (st : RTState) : quiet_step st (backend_destroy c f st).
Proof.
  unfold backend_destroy. destruct (g_rtBackend st); constructor.
Qed.

Lemma js_updateTLAS_quiet (args : list JSValueHandle) (st : RTState) :
  ((js_updateTLAS args st).1 = newUndefined \/
   (js_updateTLAS args st).1 = exception_thrown) /\
  quiet_step st (js_updateTLAS args st).2.
Proof.
  unfold js_updateTLAS.
  destruct (g_rtBackend st) as [be|]; [|split; [auto|constructor]].
  destruct (negb (isSupported be)); [split; [auto|constructor]|].
  destruct args as [|tlasObj [|arr rest]]; try (split; [auto|constructor]).
  destruct (g_tlases st !! getTLASId tlasObj); [|split; [auto|constructor]].
  destruct (negb (isArray arr)); [split; [auto|constructor]|].
  destruct (negb (vector_reserve ElemTLASInstance _)); [split; [auto|constructor]|].
  destruct (collectInstances _ _ _ _ _); split; auto; constructor.
Qed.

Lemma js_traceRays_quiet (args : list JSValueHandle) (st : RTState) :
  (js_traceRays args st).1 = newUndefined /\ quiet_step st (js_traceRays args st).2.
Proof.
  unfold js_traceRays.
  destruct (g_rtBackend st) as [be|]; [|split; [reflexivity|constructor]].
  destruct (negb (isSupported be)); [split; [reflexivity|constructor]|].
  destruct args as [|options rest]; [split; [reflexivity|constructor]|].
  destruct (negb (isObject options)); [split; [reflexivity|constructor]|].
  destruct (g_tlases st !! _); [|split; [reflexivity|constructor]].
  destruct (if negb (isUndefined (getProperty options "uniforms")) then _ else _).
  split; [reflexivity|constructor].
Qed.

Lemma js_destroyGeometry_quiet (args : list JSValueHandle) (st : RTState) :
  (js_destroyGeometry args st).1 = newUndefined /\ quiet_step st (js_destroyGeometry args st).2.
Proof.
  unfold js_destroyGeometry.
  destruct args as [|obj rest]; [split; [reflexivity|constructor]|].
  destruct (g_geometries st !! _); split; try reflexivity; try constructor.
  apply backend_destroy_quiet.
Qed.

Lemma js_destroyBLAS_quiet (args : list JSValueHandle) (st : RTState) :
  (js_destroyBLAS args st).1 = newUndefined /\ quiet_step st (js_destroyBLAS args st).2.
Proof.
  unfold js_destroyBLAS.
  destruct args as [|obj rest]; [split; [reflexivity|constructor]|].
  destruct (g_blases st !! _); split; try reflexivity; try constructor.
  apply backend_destroy_quiet.
Qed.

Lemma js_destroyTLAS_quiet (args : list JSValueHandle) (st : RTState) :
  (js_destroyTLAS args st).1 = newUndefined /\ quiet_step st (js_destroyTLAS args st).2.
Proof.
  unfold js_destroyTLAS.
  destruct args as [|obj rest]; [split; [reflexivity|constructor]|].
  destruct (g_tlases st !! _); split; try reflexivity; try constructor.
  apply backend_destroy_quiet.
Qed.

Lemma quiet_step_next (st st' : RTState) (k : ResourceKind) :
  quiet_step st st' -> next_id k st' = next_id k st.
Proof.
  induction 1; destruct k; cbn in *; congruence.
Qed.

Lemma quiet_step_registered (st st' : RTState) (k : ResourceKind) :
  quiet_step st st' -> registered k st' ⊆ registered k st.
Proof.
  induction 1; destruct k; cbn in *; try rewrite dom_delete_L; set_solver.
Qed.


(** *** Ids along a sequence of calls *)

Lemma wrap32_range (z : Z) : 0 <= wrap32 z < 4294967296.
Proof. apply Z.mod_pos_bound. reflexivity. Qed.

Lemma wrap32_small (z : Z) : 0 <= z < 4294967296 -> wrap32 z = z.
Proof. apply Z.mod_small. Qed.

Lemma wrap32_add_l (a b : Z) : wrap32 (wrap32 a + b) = wrap32 (a + b).
Proof. apply Zplus_mod_idemp_l. Qed.

(** What one call does to the counter and the table of kind [k]. *)
Lemma invoke_effect (c : ScriptCall) (st : RTState) (k : ResourceKind) :
  match allocated k c (invoke c st).1 with
  | Some id =>
      id = next_id k st /\
      next_id k (invoke c st).2 = wrap32 (next_id k st + 1) /\
      registered k (invoke c st).2 = {[id]} ∪ registered k st
  | None =>
      next_id k (invoke c st).2 = next_id k st /\
      registered k (invoke c st).2 ⊆ registered k st
  end.
Proof.
  assert (Hquiet : forall out st',
            out = newUndefined \/ out = exception_thrown -> quiet_step st st' ->
            match allocated k c out with
            | Some id =>
                id = next_id k st /\ next_id k st' = wrap32 (next_id k st + 1) /\
                registered k st' = {[id]} ∪ registered k st
            | None => next_id k st' = next_id k st /\ registered k st' ⊆ registered k st
            end).
  { intros out st' Hout Hq.
    assert (allocated k c out = None) as ->
      by (destruct Hout as [-> | ->]; destruct k, c; reflexivity).
    split; [apply quiet_step_next | apply quiet_step_registered]; assumption. }
  destruct c as [args|args|args|args|args|args|args|args|args|args]; cbn [invoke].
  - unfold js_isSupported. destruct (g_rtBackend st); destruct k; cbn; auto.
  - unfold js_getBackend. destruct (g_rtBackend st); destruct k; cbn; auto.
  - destruct (js_createGeometry_shape args st)
      as [(desc & ret & be' & Hnn & ->) | [(desc & ret & be' & Hz & ->) | ->]];
      destruct k; cbn; try rewrite dom_insert_L; auto.
  - destruct (js_createBLAS_shape args st)
      as [(desc & ret & be' & Hnn & ->) | [(desc & ret & be' & Hz & ->) | [-> | ->]]];
      destruct k; cbn; try rewrite dom_insert_L; auto.
  - destruct (js_createTLAS_shape args st)
      as [(desc & ret & be' & Hnn & ->) | [(desc & ret & be' & Hz & ->) | [-> | ->]]];
      destruct k; cbn; try rewrite dom_insert_L; auto.
  - apply Hquiet; apply js_updateTLAS_quiet.
  - apply Hquiet; [left|]; apply js_traceRays_quiet.
  - apply Hquiet; [left|]; apply js_destroyBLAS_quiet.
  - apply Hquiet; [left|]; apply js_destroyTLAS_quiet.
  - apply Hquiet; [left|]; apply js_destroyGeometry_quiet.
Qed.



Lemma run_cons (c : ScriptCall) (calls : list ScriptCall) (st : RTState) :
  run (c :: calls) st
  = ((invoke c st).1 :: (run calls (invoke c st).2).1, (run calls (invoke c st).2).2).
Proof.
  cbn [run]. destruct (invoke c st) as [out st1]. cbn.
  destruct (run calls st1) as [outs st2]. reflexivity.
Qed.



Lemma allocated_ids_length (k : ResourceKind) (calls : list ScriptCall) (outs : list JSOut) :
  (length (allocated_ids k calls outs) <= length calls)%nat.
Proof.
  revert outs. induction calls as [|c calls IH]; intros [|out outs]; cbn; try lia.
  destruct (allocated k c out); cbn; specialize (IH outs); lia.
Qed.

(** The ids allocated along a run are the successive values of the
    32-bit counter. *)
Lemma run_allocated (k : ResourceKind) (calls : list ScriptCall) (st : RTState) :
  0 <= next_id k st < 4294967296 ->
  let ids := allocated_ids k calls (run calls st).1 in
  ids = (fun j : nat => wrap32 (next_id k st + Z.of_nat j)) <$> seq 0 (length ids) /\
  next_id k (run calls st).2 = wrap32 (next_id k st + Z.of_nat (length ids)) /\
  registered k (run calls st).2 ⊆ registered k st ∪ list_to_set ids.
Proof.
  revert st. induction calls as [|c calls IH]; intros st Hrange.
  - cbn. rewrite Z.add_0_r, wrap32_small by assumption.
    split; [reflexivity|]. split; [reflexivity|]. set_solver.
  - rewrite run_cons. cbn [fst snd allocated_ids].
    pose proof (invoke_effect c st k) as Heff.
    destruct (allocated k c (invoke c st).1) as [id|].
    + destruct Heff as (-> & Hnext & Hreg).
      assert (Hr1 : 0 <= next_id k (invoke c st).2 < 4294967296)
        by (rewrite Hnext; apply wrap32_range).
      destruct (IH _ Hr1) as (Hids & Hfin & Hsub).
      set (ids := allocated_ids k calls (run calls (invoke c st).2).1) in *.
      cbn zeta. cbn [length seq fmap list_fmap].
      split; [|split].
      * f_equal.
        { rewrite Z.add_0_r, wrap32_small by assumption. reflexivity. }
        rewrite Hids at 1. rewrite <- fmap_S_seq, <- list_fmap_compose.
        apply list_fmap_ext. intros _ j _. cbn.
        rewrite Hnext, wrap32_add_l. f_equal. lia.
      * rewrite Hfin, Hnext, wrap32_add_l. f_equal. lia.
      * rewrite list_to_set_cons. rewrite Hreg in Hsub. set_solver.
    + destruct Heff as (Hnext & Hreg).
      assert (Hr1 : 0 <= next_id k (invoke c st).2 < 4294967296)
        by (rewrite Hnext; assumption).
      destruct (IH _ Hr1) as (Hids & Hfin & Hsub).
      rewrite Hnext in Hids, Hfin.
      split; [exact Hids|]. split; [exact Hfin|]. set_solver.
Qed.


(** *** Consecutive ids *)

Lemma seq_strongly_sorted (j n : nat) : StronglySorted lt (seq j n).
Proof.
  revert j. induction n as [|n IH]; intros j; cbn; constructor.
  - apply IH.
  - apply Forall_forall. intros x Hx. apply elem_of_seq in Hx. lia.
Qed.

Lemma seqZ_strongly_sorted (m n : Z) : StronglySorted Z.lt (seqZ m n).
Proof.
  unfold seqZ. apply (StronglySorted_fmap _ lt Z.lt).
  - intros x y Hxy. lia.
  - apply seq_strongly_sorted.
Qed.

Lemma strongly_sorted_lookup (l : list Z) (i j : nat) (a b : Z) :
  StronglySorted Z.lt l -> (i < j)%nat -> l !! i = Some a -> l !! j = Some b -> a < b.
Proof.
  intros Hs. revert i j. induction Hs as [|x l Hs IH Hall]; intros i j Hij Hi Hj.
  - rewrite lookup_nil in Hi. discriminate.
  - destruct j as [|j]; [lia|]. cbn in Hj. destruct i as [|i]; cbn in Hi.
    + injection Hi as <-. rewrite Forall_forall in Hall.
      apply Hall. apply list_elem_of_lookup. eauto.
    + apply (IH i j); [lia|assumption..].
Qed.

Lemma strongly_sorted_NoDup (l : list Z) : StronglySorted Z.lt l -> NoDup l.
Proof.
  induction 1 as [|x l Hs IH Hall]; constructor; [|assumption].
  intros Hx. rewrite Forall_forall in Hall. specialize (Hall x Hx). lia.
Qed.

(** Without wrap-around the counter values are the integers from the start. *)
Lemma counter_values_seqZ (start : Z) (n : nat) :
  0 <= start -> start + Z.of_nat n <= 4294967296 ->
  (fun j : nat => wrap32 (start + Z.of_nat j)) <$> seq 0 n = seqZ start (Z.of_nat n).
Proof.
  intros H0 Hn. unfold seqZ. rewrite Nat2Z.id.
  apply list_fmap_ext. intros i j Hj.
  apply lookup_seq in Hj as [-> Hlt].
  rewrite wrap32_small by lia. lia.
Qed.

Lemma initialize_clean : clean_slate (initializeRTBindings initial_state).
Proof.
  intros k. destruct k; cbn; split; try reflexivity; apply dom_empty_L.
Qed.

Lemma cleanup_resets (st : RTState) : clean_slate (cleanupRTBindings st).
Proof.
  intros k. destruct k; cbn; split; try reflexivity; apply dom_empty_L.
Qed.

(** C4 (amended). From a state whose counter for kind [k] is 1 (the
    start of the process, or after [cleanupRTBindings]), the ids allocated
    for [k] by the successful creations of any sequence of calls are, as
    long as there are fewer than 2^32 of them (the 32-bit counter has not
    wrapped), exactly 1, 2, 3, ... in order: strictly increasing, starting
    at 1 and without repetition. The counter moves only with such an
    allocation; [cleanupRTBindings] puts it back to 1. *)
Theorem allocated_ids_consecutive
    (k : ResourceKind) (calls : list ScriptCall) (st : RTState) :
  next_id k st = 1 ->
  let ids := allocated_ids k calls (run calls st).1 in
  Z.of_nat (length ids) < 4294967296 ->
  ids = seqZ 1 (Z.of_nat (length ids)) /\
  StronglySorted Z.lt ids /\ NoDup ids /\
  next_id k (run calls st).2 = wrap32 (1 + Z.of_nat (length ids)) /\
  next_id k (cleanupRTBindings (run calls st).2) = 1.
Proof.
  intros Hstart ids Hlen.
  assert (Hrange : 0 <= next_id k st < 4294967296) by (rewrite Hstart; lia).
  destruct (run_allocated k calls st Hrange) as (Hids & Hnext & _).
  fold ids in Hids, Hnext. rewrite Hstart in Hids, Hnext.
  rewrite counter_values_seqZ in Hids by lia.
  split; [exact Hids|].
  split; [rewrite Hids; apply seqZ_strongly_sorted|].
  split; [apply strongly_sorted_NoDup; rewrite Hids; apply seqZ_strongly_sorted|].
  split; [exact Hnext|].
  apply cleanup_resets.
Qed.

(** *** Handle objects without an id *)



End Properties.

(** ** Concrete runs: the reference engine over the counting backend *)

Section Runs.

#[local] Existing Instance ReferenceEngine.
#[local] Existing Instance CountingBackend.
#[local] Existing Instance BoundedHeap.

(** On the counting backend every [createGeometry] of a triangle
    succeeds. *)
Lemma counting_create (st : RTState) (be : N) :
  g_rtBackend st = Some be ->
  (js_createGeometry [geometry_options] st).1 = createGeometryJS (g_nextGeometryId st) /\
  g_rtBackend (js_createGeometry [geometry_options] st).2 = Some (N.succ be) /\
  g_geometries (js_createGeometry [geometry_options] st).2
    = <[g_nextGeometryId st := {| geometry_handle := Z.pos (N.succ_pos be);
                                  geometry_id := g_nextGeometryId st |}]>
        (g_geometries st).
Proof.
  intros Hbe. unfold js_createGeometry. rewrite Hbe.
  repeat split; reflexivity.
Qed.

Lemma counting_run (n : nat) (st : RTState) (be : N) :
  g_rtBackend st = Some be ->
  length (allocated_ids Geometry (repeat create_triangle n)
            (run (repeat create_triangle n) st).1) = n /\
  exists be', g_rtBackend (run (repeat create_triangle n) st).2 = Some be'.
Proof.
  revert st be. induction n as [|n IH]; intros st be Hbe.
  - split; [reflexivity|]. exists be. exact Hbe.
  - cbn [repeat]. rewrite run_cons. cbn [fst snd allocated_ids].
    change (invoke create_triangle st) with (js_createGeometry [geometry_options] st).
    change (allocated Geometry create_triangle) with wrapper_id.
    destruct (counting_create st be Hbe) as (Hout & Hbe' & _).
    rewrite Hout. cbn [wrapper_id createGeometryJS length].
    destruct (IH _ _ Hbe') as [Hlen Hex].
    split; [f_equal; exact Hlen | exact Hex].
Qed.

(** The ids and the counter after [n] creations in a row. *)
Lemma counting_ids (n : nat) :
  allocated_ids Geometry (repeat create_triangle n) (run (repeat create_triangle n) started).1
    = (fun j : nat => wrap32 (1 + Z.of_nat j)) <$> seq 0 n /\
  g_nextGeometryId (run (repeat create_triangle n) started).2 = wrap32 (1 + Z.of_nat n) /\
  exists be, g_rtBackend (run (repeat create_triangle n) started).2 = Some be.
Proof.
  destruct (counting_run n started 0%N eq_refl) as [Hlen Hbe].
  assert (Hrange : 0 <= next_id Geometry started < 4294967296)
    by (split; [discriminate | reflexivity]).
  destruct (run_allocated Geometry (repeat create_triangle n) started Hrange)
    as (Hids & Hnext & _).
  rewrite Hlen in Hids, Hnext.
  split; [exact Hids|]. split; [exact Hnext | exact Hbe].
Qed.

(** When [n] is 2^32, the ids at positions 2^32 - 2 and 2^32 - 1. *)
Lemma wrap_generic (n i j : nat) :
  Z.of_nat n = 4294967296 -> Z.of_nat i = 4294967294 -> Z.of_nat j = 4294967295 ->
  allocated_ids Geometry (repeat create_triangle n)
    (run (repeat create_triangle n) started).1 !! i = Some 4294967295 /\
  allocated_ids Geometry (repeat create_triangle n)
    (run (repeat create_triangle n) started).1 !! j = Some 0 /\
  ~ StronglySorted Z.lt
      (allocated_ids Geometry (repeat create_triangle n)
         (run (repeat create_triangle n) started).1).
Proof.
  intros Hn Hi Hj.
  destruct (counting_ids n) as (Hids & _ & _).
  set (ids := allocated_ids _ _ _) in *.
  assert (H1 : ids !! i = Some 4294967295).
  { rewrite Hids, list_lookup_fmap, lookup_seq_lt by lia.
    cbn [fmap option_fmap option_map Nat.add]. rewrite Hi. reflexivity. }
  assert (H2 : ids !! j = Some 0).
  { rewrite Hids, list_lookup_fmap, lookup_seq_lt by lia.
    cbn [fmap option_fmap option_map Nat.add]. rewrite Hj. reflexivity. }
  split; [exact H1|]. split; [exact H2|].
  intros Hsorted.
  assert (Hlt : (i < j)%nat) by lia.
  pose proof (strongly_sorted_lookup ids _ _ _ _ Hsorted Hlt H1 H2) as Habs.
  discriminate Habs.
Qed.


(** The scenario of the specification, run on the model. *)
Example scenario_results :
  (run scenario_calls started).1
    = [createGeometryJS 1; createBLASJS 1; newUndefined; createTLASJS 1].
Proof. reflexivity. Qed.

Example scenario_tables :
  g_geometries (run scenario_calls started).2 = ∅ /\
  g_blases (run scenario_calls started).2 !! 1 = Some {| blas_handle := 2; blas_id := 1 |} /\
  g_tlases (run scenario_calls started).2 !! 1 = Some {| tlas_handle := 3; tlas_id := 1 |}.
Proof. repeat split; reflexivity. Qed.

Example scenario_instance :
  head (backend_calls (run scenario_calls started).2)
    = Some (CallCreateTLAS
              [{| blas := {| blas_handle := 2; blas_id := 1 |};
                  transform := identity_matrix;
                  instanceId := 7;
                  mask := 255;
                  flags := 0 |}]
              {| tlas_handle := 3; tlas_id := 0 |}).
Proof. reflexivity. Qed.

(** With the stub backend nothing is ever created. *)
Example stub_creates_nothing :
  run (backend := StubRTBackend) scenario_calls stub_started
    = ([newNull; newNull; newUndefined; newNull], stub_started).
Proof. reflexivity. Qed.

(** Witness of C1: the stub backend reports no support. *)
Lemma create_unavailable_returns_null_witness :
  (exists be, g_rtBackend stub_started = Some be /\
              isSupported (IRTBackend := StubRTBackend) be = false) /\
  js_createGeometry (backend := StubRTBackend) [geometry_options] stub_started
    = (newNull, stub_started) /\
  js_createBLAS (backend := StubRTBackend) [geometry_options] stub_started
    = (newNull, stub_started) /\
  js_createTLAS (backend := StubRTBackend) [geometry_options] stub_started
    = (newNull, stub_started).
Proof.
  split.
  - exists tt. split; reflexivity.
  - apply (create_unavailable_returns_null (backend := StubRTBackend)).
    right. exists tt. split; reflexivity.
Defined.



(** Counterexample to C3 as stated: the script sets [mask] to 0x0F and
    [flags] to 1, and the descriptor passed to the backend has [mask]
    0xFF and [flags] 0. *)
Lemma instance_mask_and_flags_ignored :
  isUndefined (getProperty instance_with_mask "mask") = false /\
  isUndefined (getProperty instance_with_mask "flags") = false /\
  uint32_of_double (toNumber (getProperty instance_with_mask "mask")) = 15 /\
  uint32_of_double (toNumber (getProperty instance_with_mask "flags")) = 1 /\
  exists inst ret,
    backend_calls (js_createTLAS [SArray [instance_with_mask]] scene).2
      = CallCreateTLAS [inst] ret :: backend_calls scene /\
    mask inst = 255 /\ flags inst = 0.
Proof.
  repeat split; try reflexivity.
  eexists. eexists. split; [reflexivity|]. split; reflexivity.
Qed.

(** Witness of C3 (amended). *)
Lemma instance_optional_fields_witness :
  exists insts ret,
    backend_calls (js_createTLAS [SArray [instance_short_transform]] scene).2
      = CallCreateTLAS insts ret :: backend_calls scene /\
    forall (k : nat) inst, insts !! k = Some inst ->
      instanceId inst
        = (if isUndefined (getProperty (getPropertyIndex (SArray [instance_short_transform])
                                          (wrap32 (Z.of_nat k))) "instanceId")
           then 0
           else uint32_of_double
                  (toNumber (getProperty (getPropertyIndex (SArray [instance_short_transform])
                                            (wrap32 (Z.of_nat k))) "instanceId"))) /\
      mask inst = 255 /\ flags inst = 0.
Proof.
  eexists. eexists. split; [reflexivity|].
  eapply (instance_optional_fields (engine := ReferenceEngine) SUndefined
            (SArray [instance_short_transform]) [] scene _ _ {| tlas_handle := 0; tlas_id := 0 |}).
  left. reflexivity.
Defined.


(** Counterexample to C7 as stated: [indices] is present, its
    extraction yields a zero byte length, and the call returns a geometry
    wrapper, not null. *)
Lemma empty_indices_do_not_fail :
  isUndefined (getProperty geometry_options_empty_indices "indices") = false /\
  getArrayBufferData (getProperty geometry_options_empty_indices "indices") = Some [] /\
  (js_createGeometry [geometry_options_empty_indices] started).1 = createGeometryJS 1 /\
  (js_createGeometry [geometry_options_empty_indices] started).1 <> newNull.
Proof.
  repeat split; try reflexivity. discriminate.
Qed.

(** Witness of C7 (amended). *)
Lemma createGeometry_buffer_extraction_witness :
  js_createGeometry [SObject [("vertices"%string, SBuffer [])]] started = (newNull, started) /\
  exists desc,
    let ret := (createGeometry 0%N desc).1 in
    backend_calls (js_createGeometry [geometry_options_empty_indices] started).2
      = CallCreateGeometry desc ret :: backend_calls started /\
    vertices desc = Some (repeat Byte.x00 36) /\ indices desc = None /\ indexCount desc = 0 /\
    (js_createGeometry [geometry_options_empty_indices] started).1
      = if geometry_handle ret =? 0 then newNull
        else createGeometryJS (g_nextGeometryId started).
Proof.
  split.
  - apply (createGeometry_buffer_extraction (engine := ReferenceEngine)
             (SObject [("vertices"%string, SBuffer [])]) [] started).
    reflexivity.
  - apply (proj2 (createGeometry_buffer_extraction (engine := ReferenceEngine)
                    geometry_options_empty_indices [] started) 0%N (repeat Byte.x00 36));
      try reflexivity.
    vm_compute. discriminate.
Defined.


(** Witness of C8: BLAS 1 destroyed twice, and a destroy of id 9. *)
Lemma destroy_idempotent_witness :
  js_destroyBLAS [handle_object "blas" 1] (js_destroyBLAS [handle_object "blas" 1] scene).2
    = (newUndefined, (js_destroyBLAS [handle_object "blas" 1] scene).2) /\
  g_blases scene !! getBLASId (handle_object "blas" 9) = None /\
  js_destroyBLAS [handle_object "blas" 9] scene = (newUndefined, scene).
Proof.
  split; [|split].
  - apply (destroy_idempotent (engine := ReferenceEngine) [handle_object "blas" 1] scene).
  - reflexivity.
  - apply (proj2 (destroy_idempotent (engine := ReferenceEngine) [handle_object "blas" 9] scene)
             (handle_object "blas" 9) [] eq_refl).
    reflexivity.
Defined.

(** Witness of C4 (amended): three creations around a destroy. *)
Lemma allocated_ids_consecutive_witness :
  let calls := [create_triangle; create_triangle;
                RT_destroyGeometry [handle_object "geometry" 1]; create_triangle] in
  let ids := allocated_ids Geometry calls (run calls started).1 in
  next_id Geometry started = 1 /\
  Z.of_nat (length ids) < 4294967296 /\
  ids = seqZ 1 (Z.of_nat (length ids)) /\
  StronglySorted Z.lt ids /\ NoDup ids /\
  next_id Geometry (run calls started).2 = wrap32 (1 + Z.of_nat (length ids)) /\
  next_id Geometry (cleanupRTBindings (run calls started).2) = 1.
Proof.
  intros calls ids.
  split; [reflexivity|]. split; [reflexivity|].
  apply (allocated_ids_consecutive (engine := ReferenceEngine) Geometry calls started); reflexivity.
Defined.

(** Counterexample to C4 as stated: 2^32 successful creations in a row.
    The last two ids allocated are 4294967295 and then 0, so the ids are
    not strictly increasing. *)
Lemma allocator_wraps_around :
  allocated_ids Geometry (repeat create_triangle (Z.to_nat 4294967296))
    (run (repeat create_triangle (Z.to_nat 4294967296)) started).1
    !! Z.to_nat 4294967294 = Some 4294967295 /\
  allocated_ids Geometry (repeat create_triangle (Z.to_nat 4294967296))
    (run (repeat create_triangle (Z.to_nat 4294967296)) started).1
    !! Z.to_nat 4294967295 = Some 0 /\
  ~ StronglySorted Z.lt
      (allocated_ids Geometry (repeat create_triangle (Z.to_nat 4294967296))
         (run (repeat create_triangle (Z.to_nat 4294967296)) started).1).
Proof.
  apply wrap_generic; apply Z2Nat.id; discriminate.
Qed.



End Runs.

(** ** Further properties of the bindings *)

Section Coverage.

Context {engine : JSEngine} {backend : IRTBackend} {heap : Heap}.

(** *** The loops, when every element resolves *)

Lemma collectInstances_total (arr : JSValueHandle) (blases : gmap Z RTBLASHandle)
    (n : nat) (start : Z) (acc : list RTTLASInstance) :
  (forall i, start <= i < start + Z.of_nat n ->
     is_Some (blases !! getBLASId (getProperty (getPropertyIndex arr (wrap32 i)) "blas"))) ->
  exists insts, collectInstances arr blases n start acc = Some insts.
Proof.
  revert start acc. induction n as [|n IH]; intros start acc Hall; cbn [collectInstances].
  - eauto.
  - destruct (marshalInstance blases (getPropertyIndex arr (wrap32 start))) as [inst|] eqn:Hm.
    + apply IH. intros i Hi. apply Hall. lia.
    + apply marshalInstance_None in Hm.
      destruct (Hall start ltac:(lia)) as [h Hh]. congruence.
Qed.

Lemma collectGeometries_total (arr : JSValueHandle) (geometries : gmap Z RTGeometryHandle)
    (n : nat) (start : Z) (acc : list RTGeometryHandle) :
  (forall i, start <= i < start + Z.of_nat n ->
     is_Some (geometries !! getGeometryId (getPropertyIndex arr (wrap32 i)))) ->
  exists handles, collectGeometries arr geometries n start acc = Some handles.
Proof.
  revert start acc. induction n as [|n IH]; intros start acc Hall; cbn [collectGeometries].
  - eauto.
  - destruct (Hall start ltac:(lia)) as [h Hh]. rewrite Hh.
    apply IH. intros i Hi. apply Hall. lia.
Qed.

Lemma collectGeometries_spec (arr : JSValueHandle) (geometries : gmap Z RTGeometryHandle)
    (n : nat) (start : Z) (acc handles : list RTGeometryHandle) :
  collectGeometries arr geometries n start acc = Some handles ->
  exists new, handles = acc ++ new /\ length new = n /\
    forall (k : nat) h, new !! k = Some h ->
      geometries !! getGeometryId (getPropertyIndex arr (wrap32 (start + Z.of_nat k))) = Some h.
Proof.
  revert start acc.
  induction n as [|n IH]; intros start acc H; cbn [collectGeometries] in H.
  - injection H as <-. exists []. rewrite app_nil_r.
    repeat split. intros k h Hk. rewrite lookup_nil in Hk. discriminate.
  - destruct (geometries !! getGeometryId (getPropertyIndex arr (wrap32 start)))
      as [h0|] eqn:H0; [|discriminate].
    destruct (IH _ _ H) as (new & -> & Hlen & Hall).
    exists (h0 :: new). rewrite <- app_assoc. repeat split.
    + cbn. rewrite Hlen. reflexivity.
    + intros [|k] h Hk; cbn in Hk.
      * injection Hk as <-. rewrite Z.add_0_r. exact H0.
      * specialize (Hall k h Hk).
        replace (start + Z.of_nat (S k)) with (start + 1 + Z.of_nat k) by lia.
        exact Hall.
Qed.

(** X1. [createBLAS] on a usable backend, with an array of positive
    reported length whose elements all resolve to registered geometries,
    and room to reserve the handle vector for that length, calls the
    backend once, with as many handles as the reported length: the
    registered handle of each element, in array order. *)
Theorem createBLAS_forwards_registered_handles
    (arr : JSValueHandle) (rest : list JSValueHandle) (st : RTState) (be : Backend) :
  g_rtBackend st = Some be -> isSupported be = true -> isArray arr = true ->
  0 < reported_length arr ->
  vector_reserve ElemGeometryHandle (reported_length arr) = true ->
  (forall i, 0 <= i < reported_length arr ->
     is_Some (g_geometries st !! getGeometryId (getPropertyIndex arr (wrap32 i)))) ->
  exists handles,
    length handles = Z.to_nat (reported_length arr) /\
    (forall (k : nat) h, handles !! k = Some h ->
       g_geometries st !! getGeometryId (getPropertyIndex arr (wrap32 (Z.of_nat k))) = Some h) /\
    backend_calls (js_createBLAS (arr :: rest) st).2
      = CallCreateBLAS handles (createBLAS be handles).1 :: backend_calls st.
Proof.
  intros Hbe Hsup Harr Hpos Hres Hall. unfold reported_length in *.
  destruct (collectGeometries_total arr (g_geometries st)
              (Z.to_nat (size_of_double (toNumber (getProperty arr "length")))) 0 [])
    as [handles Hc].
  { intros i Hi. apply Hall. lia. }
  exists handles.
  destruct (collectGeometries_spec _ _ _ _ _ _ Hc) as (new & Hnew & Hlen & Hspec).
  cbn in Hnew. subst new.
  split; [exact Hlen|]. split; [exact Hspec|].
  unfold js_createBLAS. rewrite Hbe, Hsup, Harr. cbn [negb].
  assert ((size_of_double (toNumber (getProperty arr "length")) =? 0) = false) as ->
    by (apply Z.eqb_neq; lia).
  rewrite Hres. cbn [negb].
  rewrite Hc. destruct (createBLAS be handles) as [handle be'].
  destruct (blas_handle handle =? 0); reflexivity.
Qed.

(** X2. [createTLAS] on a usable backend, with an array of positive
    reported length whose instances all name a registered BLAS, and room
    to reserve the instance vector for that length, calls the backend
    once with one descriptor per instance, each holding the registered
    handle of its BLAS. *)
Theorem createTLAS_forwards_resolved_instances
    (arr : JSValueHandle) (rest : list JSValueHandle) (st : RTState) (be : Backend) :
  g_rtBackend st = Some be -> isSupported be = true -> isArray arr = true ->
  0 < reported_length arr ->
  vector_reserve ElemTLASInstance (reported_length arr) = true ->
  (forall i, 0 <= i < reported_length arr ->
     is_Some (g_blases st !! getBLASId (getProperty (getPropertyIndex arr (wrap32 i)) "blas"))) ->
  exists insts,
    length insts = Z.to_nat (reported_length arr) /\
    (forall (k : nat) inst, insts !! k = Some inst ->
       g_blases st !! getBLASId (getProperty (getPropertyIndex arr (wrap32 (Z.of_nat k))) "blas")
         = Some (blas inst)) /\
    backend_calls (js_createTLAS (arr :: rest) st).2
      = CallCreateTLAS insts (createTLAS be insts).1 :: backend_calls st.
Proof.
  intros Hbe Hsup Harr Hpos Hres Hall. unfold reported_length in *.
  destruct (collectInstances_total arr (g_blases st)
              (Z.to_nat (size_of_double (toNumber (getProperty arr "length")))) 0 [])
    as [insts Hc].
  { intros i Hi. apply Hall. lia. }
  exists insts.
  destruct (collectInstances_spec _ _ _ _ _ _ Hc) as (new & Hnew & Hlen & Hspec).
  cbn in Hnew. subst new.
  split; [exact Hlen|]. split.
  - intros k inst Hk. specialize (Hspec k inst Hk). rewrite Z.add_0_l in Hspec.
    unfold marshalInstance in Hspec.
    destruct (g_blases st !! _) as [it|]; [|discriminate].
    destruct (extractFloat32Array _ 0). injection Hspec as <-. reflexivity.
  - unfold js_createTLAS. rewrite Hbe, Hsup, Harr. cbn [negb].
    assert ((size_of_double (toNumber (getProperty arr "length")) =? 0) = false) as ->
      by (apply Z.eqb_neq; lia).
    rewrite Hres. cbn [negb].
    rewrite Hc. destruct (createTLAS be insts) as [handle be'].
    destruct (tlas_handle handle =? 0); reflexivity.
Qed.

(** X3. [updateTLAS] does not check the number of instances: on a usable
    backend, with a registered TLAS and an array whose instances all
    resolve, and room to reserve the instance vector for the reported
    length (an empty array needs none), it calls the backend with the
    registered TLAS handle and one descriptor per instance, whatever the
    array length; an empty array reaches the backend as an empty
    update. *)
Theorem updateTLAS_forwards_any_count
    (tlasObj arr : JSValueHandle) (rest : list JSValueHandle) (st : RTState)
    (be : Backend) (h : RTTLASHandle) :
  g_rtBackend st = Some be -> isSupported be = true ->
  g_tlases st !! getTLASId tlasObj = Some h -> isArray arr = true ->
  (reported_length arr = 0 \/
   vector_reserve ElemTLASInstance (reported_length arr) = true) ->
  (forall i, 0 <= i < reported_length arr ->
     is_Some (g_blases st !! getBLASId (getProperty (getPropertyIndex arr (wrap32 i)) "blas"))) ->
  exists insts,
    length insts = Z.to_nat (reported_length arr) /\
    js_updateTLAS (tlasObj :: arr :: rest) st
      = (newUndefined, log_call (CallUpdateTLAS h insts) (updateTLAS be h insts) st).
Proof.
  intros Hbe Hsup Htlas Harr Hres Hall. unfold reported_length in *.
  assert (vector_reserve ElemTLASInstance
            (size_of_double (toNumber (getProperty arr "length"))) = true) as Hres'.
  { destruct Hres as [-> | Hres]; [apply vector_reserve_zero | exact Hres]. }
  destruct (collectInstances_total arr (g_blases st)
              (Z.to_nat (size_of_double (toNumber (getProperty arr "length")))) 0 [])
    as [insts Hc].
  { intros i Hi. apply Hall. lia. }
  exists insts.
  destruct (collectInstances_spec _ _ _ _ _ _ Hc) as (new & Hnew & Hlen & _).
  cbn in Hnew. subst new.
  split; [exact Hlen|].
  unfold js_updateTLAS. rewrite Hbe, Hsup, Htlas, Harr. cbn [negb].
  rewrite Hres'. cbn [negb].
  rewrite Hc. reflexivity.
Qed.


(** *** Creation: empty input, frame, descriptor *)

(** X5. [createBLAS] and [createTLAS] reject an array whose reported
    length is 0, an argument that is not an array, and an empty argument
    list: they return null and leave the state unchanged. *)
Theorem create_structure_rejects_empty
    (arr : JSValueHandle) (rest : list JSValueHandle) (st : RTState) :
  (reported_length arr = 0 \/ isArray arr = false ->
   js_createBLAS (arr :: rest) st = (newNull, st) /\
   js_createTLAS (arr :: rest) st = (newNull, st)) /\
  js_createBLAS [] st = (newNull, st) /\
  js_createTLAS [] st = (newNull, st) /\
  js_createGeometry [] st = (newNull, st).
Proof.
  unfold reported_length. repeat split.
  - unfold js_createBLAS.
    destruct (g_rtBackend st) as [be|]; [|reflexivity].
    destruct (negb (isSupported be)); [reflexivity|].
    destruct H as [-> | ->]; [|reflexivity].
    destruct (negb (isArray arr)); reflexivity.
  - unfold js_createTLAS.
    destruct (g_rtBackend st) as [be|]; [|reflexivity].
    destruct (negb (isSupported be)); [reflexivity|].
    destruct H as [-> | ->]; [|reflexivity].
    destruct (negb (isArray arr)); reflexivity.
  - unfold js_createBLAS.
    destruct (g_rtBackend st) as [be|]; [|reflexivity].
    destruct (negb (isSupported be)); reflexivity.
  - unfold js_createTLAS.
    destruct (g_rtBackend st) as [be|]; [|reflexivity].
    destruct (negb (isSupported be)); reflexivity.
  - unfold js_createGeometry.
    destruct (g_rtBackend st) as [be|]; [|reflexivity].
    destruct (negb (isSupported be)); reflexivity.
Qed.

(** X6. The three resource kinds are independent under creation: a
    creation call changes at most the table and the counter of its own
    kind. In particular [createBLAS] leaves the geometries it consumed
    registered, and [createTLAS] the BLASes. *)
Theorem create_frame (args : list JSValueHandle) (st : RTState) :
  (let st' := (js_createGeometry args st).2 in
   g_blases st' = g_blases st /\ g_tlases st' = g_tlases st /\
   g_nextBLASId st' = g_nextBLASId st /\ g_nextTLASId st' = g_nextTLASId st) /\
  (let st' := (js_createBLAS args st).2 in
   g_geometries st' = g_geometries st /\ g_tlases st' = g_tlases st /\
   g_nextGeometryId st' = g_nextGeometryId st /\ g_nextTLASId st' = g_nextTLASId st) /\
  (let st' := (js_createTLAS args st).2 in
   g_geometries st' = g_geometries st /\ g_blases st' = g_blases st /\
   g_nextGeometryId st' = g_nextGeometryId st /\ g_nextBLASId st' = g_nextBLASId st).
Proof.
  split; [|split].
  - destruct (js_createGeometry_shape args st)
      as [(desc & ret & be' & _ & ->) | [(desc & ret & be' & _ & ->) | ->]]; cbn; auto.
  - destruct (js_createBLAS_shape args st)
      as [(desc & ret & be' & _ & ->) | [(desc & ret & be' & _ & ->) | [-> | ->]]]; cbn; auto.
  - destruct (js_createTLAS_shape args st)
      as [(desc & ret & be' & _ & ->) | [(desc & ret & be' & _ & ->) | [-> | ->]]]; cbn; auto.
Qed.

(** X7. The descriptor [createGeometry] hands to the backend, given a
    usable backend, an options object and a vertex buffer of at least one
    float: the vertex data is the buffer; [vertexCount] is the number of
    floats divided by 3; [vertexStride] is 12 and [vertexOffset] is 0
    unless the field is defined; without an [indices] field the geometry
    is non-indexed; with a non-empty index buffer [indexCount] is its
    byte size divided by 4. *)
Theorem createGeometry_descriptor
    (options : JSValueHandle) (rest : list JSValueHandle) (st : RTState)
    (be : Backend) (vdata : list Byte.byte) :
  g_rtBackend st = Some be -> isSupported be = true -> isObject options = true ->
  getArrayBufferData (getProperty options "vertices") = Some vdata ->
  4 <= Z.of_nat (length vdata) ->
  exists desc,
    backend_calls (js_createGeometry (options :: rest) st).2
      = CallCreateGeometry desc (createGeometry be desc).1 :: backend_calls st /\
    vertices desc = Some vdata /\
    vertexCount desc = Z.of_nat (length vdata) / 4 / 3 /\
    vertexStride desc
      = (if isUndefined (getProperty options "vertexStride") then 12
         else size_of_double (toNumber (getProperty options "vertexStride"))) /\
    vertexOffset desc
      = (if isUndefined (getProperty options "vertexOffset") then 0
         else size_of_double (toNumber (getProperty options "vertexOffset"))) /\
    (isUndefined (getProperty options "indices") = true ->
     indices desc = None /\ indexCount desc = 0) /\
    (forall idata,
       isUndefined (getProperty options "indices") = false ->
       getArrayBufferData (getProperty options "indices") = Some idata ->
       length idata <> 0%nat ->
       indices desc = Some idata /\ indexCount desc = Z.of_nat (length idata) / 4).
Proof.
  intros Hbe Hsup Hobj Hv Hlen.
  unfold js_createGeometry, extractFloat32Array, extractUint32Array.
  rewrite Hbe, Hsup, Hobj, Hv. cbn [negb].
  assert ((Z.of_nat (length vdata) =? 0) = false) as -> by (apply Z.eqb_neq; lia).
  assert ((Z.of_nat (length vdata) / 4 =? 0) = false) as ->.
  { apply Z.eqb_neq. intros E.
    assert (1 <= Z.of_nat (length vdata) / 4) by (apply Z.div_le_lower_bound; lia). lia. }
  destruct (isUndefined (getProperty options "indices")) eqn:Hundef; cbn [negb].
  - match goal with
    | |- context [createGeometry be ?d] => exists d; set (desc := d)
    end.
    destruct (createGeometry be desc) as [handle be'] eqn:Hcall. cbn [fst].
    split; [destruct (geometry_handle handle =? 0); reflexivity|].
    do 4 (split; [reflexivity|]).
    split; [intros _; split; reflexivity | intros idata Hf; discriminate Hf].
  - destruct (getArrayBufferData (getProperty options "indices")) as [idata|] eqn:Hidx.
    + destruct (Z.of_nat (length idata) =? 0) eqn:Hz.
      * match goal with
        | |- context [createGeometry be ?d] => exists d; set (desc := d)
        end.
        destruct (createGeometry be desc) as [handle be'] eqn:Hcall. cbn [fst].
        split; [destruct (geometry_handle handle =? 0); reflexivity|].
        do 4 (split; [reflexivity|]).
        split; [intros Hu; discriminate Hu|].
        intros idata' _ Hi Hne. injection Hi as <-. apply Z.eqb_eq in Hz. lia.
      * match goal with
        | |- context [createGeometry be ?d] => exists d; set (desc := d)
        end.
        destruct (createGeometry be desc) as [handle be'] eqn:Hcall. cbn [fst].
        split; [destruct (geometry_handle handle =? 0); reflexivity|].
        do 4 (split; [reflexivity|]).
        split; [intros Hu; discriminate Hu|].
        intros idata' _ Hi Hne. injection Hi as <-. split; reflexivity.
    + match goal with
      | |- context [createGeometry be ?d] => exists d; set (desc := d)
      end.
      destruct (createGeometry be desc) as [handle be'] eqn:Hcall. cbn [fst].
      split; [destruct (geometry_handle handle =? 0); reflexivity|].
      do 4 (split; [reflexivity|]).
      split; [intros Hu; discriminate Hu|].
      intros idata' _ Hi. discriminate Hi.
Qed.

(** X8. A vertex buffer shorter than one float (fewer than 4 bytes, the
    empty buffer included) makes [createGeometry] fail: null is returned
    and the state is unchanged. *)
Theorem createGeometry_rejects_sub_float_buffer
    (options : JSValueHandle) (rest : list JSValueHandle) (st : RTState)
    (vdata : list Byte.byte) :
  getArrayBufferData (getProperty options "vertices") = Some vdata ->
  Z.of_nat (length vdata) < 4 ->
  js_createGeometry (options :: rest) st = (newNull, st).
Proof.
  intros Hv Hlen. unfold js_createGeometry, extractFloat32Array.
  destruct (g_rtBackend st) as [be|]; [|reflexivity].
  destruct (negb (isSupported be)); [reflexivity|].
  destruct (negb (isObject options)); [reflexivity|].
  rewrite Hv.
  destruct (Z.of_nat (length vdata) =? 0); [reflexivity|].
  rewrite Z.div_small by lia. reflexivity.
Qed.

(** *** Destruction *)

(** X9. What a destroy does, whatever the backend's state of support:
    the entry of the id the handle object resolves to is erased (the
    other entries are kept), and the backend, when there is one, is asked
    to destroy exactly the handle that was registered; without a backend
    the entry is erased all the same. *)
Theorem destroy_erases_entry
    (obj : JSValueHandle) (rest : list JSValueHandle) (st : RTState) :
  (let st' := (js_destroyGeometry (obj :: rest) st).2 in
   g_geometries st' = delete (getGeometryId obj) (g_geometries st) /\
   backend_calls st'
     = match g_rtBackend st, g_geometries st !! getGeometryId obj with
       | Some _, Some h => CallDestroyGeometry h :: backend_calls st
       | _, _ => backend_calls st
       end) /\
  (let st' := (js_destroyBLAS (obj :: rest) st).2 in
   g_blases st' = delete (getBLASId obj) (g_blases st) /\
   backend_calls st'
     = match g_rtBackend st, g_blases st !! getBLASId obj with
       | Some _, Some h => CallDestroyBLAS h :: backend_calls st
       | _, _ => backend_calls st
       end) /\
  (let st' := (js_destroyTLAS (obj :: rest) st).2 in
   g_tlases st' = delete (getTLASId obj) (g_tlases st) /\
   backend_calls st'
     = match g_rtBackend st, g_tlases st !! getTLASId obj with
       | Some _, Some h => CallDestroyTLAS h :: backend_calls st
       | _, _ => backend_calls st
       end).
Proof.
  unfold js_destroyGeometry, js_destroyBLAS, js_destroyTLAS, backend_destroy.
  split; [|split].
  - destruct (g_geometries st !! getGeometryId obj) as [h|] eqn:Hh.
    + destruct (g_rtBackend st); cbn; auto.
    + cbn. rewrite delete_id by exact Hh. destruct (g_rtBackend st); auto.
  - destruct (g_blases st !! getBLASId obj) as [h|] eqn:Hh.
    + destruct (g_rtBackend st); cbn; auto.
    + cbn. rewrite delete_id by exact Hh. destruct (g_rtBackend st); auto.
  - destruct (g_tlases st !! getTLASId obj) as [h|] eqn:Hh.
    + destruct (g_rtBackend st); cbn; auto.
    + cbn. rewrite delete_id by exact Hh. destruct (g_rtBackend st); auto.
Qed.

(** X10. Create then destroy. If [createGeometry] succeeds with id [id],
    [id] was not registered before, and [obj] resolves to [id], then
    destroying [obj] right after restores the geometry table, and the
    handle the backend is asked to destroy carries the native pointer
    the backend returned for that creation. *)
Theorem create_then_destroy_geometry
    (args rest : list JSValueHandle) (obj : JSValueHandle) (st : RTState) (id : Z) :
  (js_createGeometry args st).1 = createGeometryJS id ->
  g_geometries st !! id = None ->
  getGeometryId obj = id ->
  let st1 := (js_createGeometry args st).2 in
  let st2 := (js_destroyGeometry (obj :: rest) st1).2 in
  g_geometries st2 = g_geometries st /\
  exists desc ret,
    geometry_handle ret <> 0 /\
    backend_calls st2
      = CallDestroyGeometry {| geometry_handle := geometry_handle ret; geometry_id := id |}
        :: CallCreateGeometry desc ret :: backend_calls st.
Proof.
  intros Hout Hfresh Hobj.
  destruct (js_createGeometry_shape args st)
    as [(desc & ret & be' & Hnn & Heq) | [(desc & ret & be' & Hz & Heq) | Heq]];
    rewrite Heq in Hout |- *; cbn [fst snd] in *; try discriminate Hout.
  injection Hout as Hid.
  unfold js_destroyGeometry. rewrite Hobj, <- Hid. cbn.
  rewrite lookup_insert_eq. cbn.
  split.
  - rewrite delete_insert_eq. apply delete_id. rewrite Hid. exact Hfresh.
  - exists desc, ret. split; [exact Hnn | reflexivity].
Qed.

(** X11. Handle objects are resolved through their [_id] property
    alone; the [_type] tag is never read. Two objects with the same [_id]
    value are interchangeable in every destroy and as the TLAS argument of
    [updateTLAS]. *)
Theorem handle_resolution_ignores_type
    (o1 o2 : JSValueHandle) (rest : list JSValueHandle) (st : RTState) :
  getProperty o1 "_id" = getProperty o2 "_id" ->
  js_destroyGeometry (o1 :: rest) st = js_destroyGeometry (o2 :: rest) st /\
  js_destroyBLAS (o1 :: rest) st = js_destroyBLAS (o2 :: rest) st /\
  js_destroyTLAS (o1 :: rest) st = js_destroyTLAS (o2 :: rest) st /\
  js_updateTLAS (o1 :: rest) st = js_updateTLAS (o2 :: rest) st.
Proof.
  intros Hid.
  unfold js_destroyGeometry, js_destroyBLAS, js_destroyTLAS, js_updateTLAS,
    getGeometryId, getBLASId, getTLASId.
  rewrite Hid. auto.
Qed.

(** *** The support gate *)

(** X12. [isSupported()] reports exactly the gate of the other entry
    points: it never changes the state, and when it returns false every
    creation returns null and [updateTLAS] and [traceRays] return
    undefined, all without changing the state. *)
Theorem isSupported_false_means_inert
    (qargs args : list JSValueHandle) (st : RTState) :
  (js_isSupported qargs st).2 = st /\
  ((js_isSupported qargs st).1 = newBoolean false ->
   js_createGeometry args st = (newNull, st) /\
   js_createBLAS args st = (newNull, st) /\
   js_createTLAS args st = (newNull, st) /\
   js_updateTLAS args st = (newUndefined, st) /\
   js_traceRays args st = (newUndefined, st)).
Proof.
  unfold js_isSupported, js_createGeometry, js_createBLAS, js_createTLAS,
    js_updateTLAS, js_traceRays.
  destruct (g_rtBackend st) as [be|]; cbn; [|auto 10].
  split; [reflexivity|]. intros H. injection H as ->. cbn. auto 10.
Qed.

(** X13. [traceRays] calls the backend exactly when the backend is
    usable, the first argument is an object and its [tlas] resolves to a
    registered TLAS; the options it passes then hold that registered
    handle, and no uniform buffer when the [uniforms] field is undefined.
    In every case it returns undefined and leaves the tables and the
    counters alone. *)
Theorem traceRays_dispatch
    (options : JSValueHandle) (rest : list JSValueHandle) (st : RTState) :
  let st' := (js_traceRays (options :: rest) st).2 in
  (js_traceRays (options :: rest) st).1 = newUndefined /\
  g_geometries st' = g_geometries st /\ g_blases st' = g_blases st /\
  g_tlases st' = g_tlases st /\
  (forall k, next_id k st' = next_id k st) /\
  match g_rtBackend st, g_tlases st !! getTLASId (getProperty options "tlas") with
  | Some be, Some h =>
      if isSupported be && isObject options then
        exists opts,
          backend_calls st' = CallTraceRays opts :: backend_calls st /\
          tlas opts = h /\
          width opts = uint32_of_double (toNumber (getProperty options "width")) /\
          height opts = uint32_of_double (toNumber (getProperty options "height")) /\
          (isUndefined (getProperty options "uniforms") = true ->
           uniforms opts = None /\ uniformsSize opts = 0)
      else st' = st
  | _, _ => st' = st
  end.
Proof.
  assert (Hk : forall s1 s2 : RTState,
             g_nextGeometryId s1 = g_nextGeometryId s2 ->
             g_nextBLASId s1 = g_nextBLASId s2 ->
             g_nextTLASId s1 = g_nextTLASId s2 ->
             forall k, next_id k s1 = next_id k s2)
    by (intros s1 s2 H1 H2 H3 k; destruct k; assumption).
  unfold js_traceRays.
  destruct (g_rtBackend st) as [be|].
  2: { cbn. split; [reflexivity|]. do 3 (split; [reflexivity|]).
       split; [apply Hk; reflexivity | reflexivity]. }
  destruct (isSupported be); cbn [negb andb].
  2: { cbn. split; [reflexivity|]. do 3 (split; [reflexivity|]).
       split; [apply Hk; reflexivity|]. destruct (g_tlases st !! _); reflexivity. }
  destruct (isObject options); cbn [negb].
  2: { cbn. split; [reflexivity|]. do 3 (split; [reflexivity|]).
       split; [apply Hk; reflexivity|]. destruct (g_tlases st !! _); reflexivity. }
  destruct (g_tlases st !! getTLASId (getProperty options "tlas")) as [h|].
  2: { cbn. split; [reflexivity|]. do 3 (split; [reflexivity|]).
       split; [apply Hk; reflexivity | reflexivity]. }
  destruct (isUndefined (getProperty options "uniforms")) eqn:Hu; cbn [negb].
  - cbn. split; [reflexivity|]. do 3 (split; [reflexivity|]).
    split; [apply Hk; reflexivity|].
    eexists. split; [reflexivity|]. cbn. auto.
  - cbn. split; [reflexivity|]. do 3 (split; [reflexivity|]).
    split; [apply Hk; reflexivity|].
    eexists. split; [reflexivity|]. cbn.
    do 3 (split; [reflexivity|]). intros Hf. discriminate Hf.
Qed.

(** *** Registry invariants along call sequences *)

Lemma quiet_step_submap (st st' : RTState) :
  quiet_step st st' ->
  (forall id h, g_geometries st' !! id = Some h -> g_geometries st !! id = Some h) /\
  (forall id h, g_blases st' !! id = Some h -> g_blases st !! id = Some h) /\
  (forall id h, g_tlases st' !! id = Some h -> g_tlases st !! id = Some h).
Proof.
  induction 1 as [| |id st1 Hq IH|id st1 Hq IH|id st1 Hq IH]; cbn; auto;
    destruct IH as (Hg & Hb & Ht); repeat split; auto;
    intros i h Hi; apply lookup_delete_Some in Hi as [_ Hi]; auto.
Qed.

Lemma quiet_step_ids_match (st st' : RTState) :
  quiet_step st st' -> ids_match_keys st -> ids_match_keys st'.
Proof.
  intros Hq (Hg & Hb & Ht).
  destruct (quiet_step_submap st st' Hq) as (Sg & Sb & St).
  repeat split; intros id h Hh; auto.
Qed.

Lemma insert_ids_match {H : Type} (key : H -> Z) (m : gmap Z H) (id : Z) (h : H) :
  key h = id ->
  (forall i x, m !! i = Some x -> key x = i) ->
  forall i x, <[id := h]> m !! i = Some x -> key x = i.
Proof.
  intros Hh Hm i x Hi. apply lookup_insert_Some in Hi as [[<- <-] | [_ Hi]]; auto.
Qed.

Lemma invoke_ids_match (c : ScriptCall) (st : RTState) :
  ids_match_keys st -> ids_match_keys (invoke c st).2.
Proof.
  intros Hst.
  destruct c as [args|args|args|args|args|args|args|args|args|args]; cbn [invoke].
  - unfold js_isSupported. destruct (g_rtBackend st); assumption.
  - unfold js_getBackend. destruct (g_rtBackend st); assumption.
  - destruct Hst as (Hg & Hb & Ht).
    destruct (js_createGeometry_shape args st)
      as [(desc & ret & be' & Hnn & ->) | [(desc & ret & be' & Hz & ->) | ->]];
      repeat split; cbn; try assumption.
    apply (insert_ids_match geometry_id); [reflexivity | assumption].
  - destruct Hst as (Hg & Hb & Ht).
    destruct (js_createBLAS_shape args st)
      as [(desc & ret & be' & Hnn & ->) | [(desc & ret & be' & Hz & ->) | [-> | ->]]];
      repeat split; cbn; try assumption.
    apply (insert_ids_match blas_id); [reflexivity | assumption].
  - destruct Hst as (Hg & Hb & Ht).
    destruct (js_createTLAS_shape args st)
      as [(desc & ret & be' & Hnn & ->) | [(desc & ret & be' & Hz & ->) | [-> | ->]]];
      repeat split; cbn; try assumption.
    apply (insert_ids_match tlas_id); [reflexivity | assumption].
  - eapply quiet_step_ids_match; [apply js_updateTLAS_quiet | assumption].
  - eapply quiet_step_ids_match; [apply js_traceRays_quiet | assumption].
  - eapply quiet_step_ids_match; [apply js_destroyBLAS_quiet | assumption].
  - eapply quiet_step_ids_match; [apply js_destroyTLAS_quiet | assumption].
  - eapply quiet_step_ids_match; [apply js_destroyGeometry_quiet | assumption].
Qed.

(** X14. Every registered handle carries, in its [_id] field, the id it
    is registered under: this holds of empty tables and is kept by every
    call, so it holds along every sequence of calls from a clean slate. *)
Theorem registered_handles_carry_their_id (calls : list ScriptCall) (st : RTState) :
  (ids_match_keys st -> ids_match_keys (run calls st).2) /\
  (clean_slate st -> ids_match_keys (run calls st).2).
Proof.
  assert (Hrun : forall cs s, ids_match_keys s -> ids_match_keys (run cs s).2).
  { induction cs as [|c cs IH]; intros s Hs; [exact Hs|].
    rewrite run_cons. cbn [snd]. apply IH, invoke_ids_match, Hs. }
  split; [apply Hrun|].
  intros Hclean. apply Hrun.
  pose proof (Hclean Geometry) as [_ Hg].
  pose proof (Hclean BLAS) as [_ Hb].
  pose proof (Hclean TLAS) as [_ Ht].
  cbn in Hg, Hb, Ht. apply dom_empty_inv_L in Hg, Hb, Ht.
  repeat split; intros id h Hh; [rewrite Hg in Hh|rewrite Hb in Hh|rewrite Ht in Hh];
    rewrite lookup_empty in Hh; discriminate.
Qed.

(** X15. From a clean slate, the ids registered for a kind are always
    among the ids that successful creations of that kind returned to the
    script: the tables never hold an id the script was not given. *)
Theorem registered_ids_were_allocated
    (k : ResourceKind) (calls : list ScriptCall) (st : RTState) :
  clean_slate st ->
  registered k (run calls st).2 ⊆ list_to_set (allocated_ids k calls (run calls st).1).
Proof.
  intros Hclean. destruct (Hclean k) as [Hstart Hempty].
  assert (Hrange : 0 <= next_id k st < 4294967296) by (rewrite Hstart; lia).
  destruct (run_allocated k calls st Hrange) as (_ & _ & Hsub).
  rewrite Hempty in Hsub. set_solver.
Qed.

(** X16. No reuse after destruction. An id below the counter of its kind
    that is not registered (it was issued and has been destroyed) is not
    registered again by any sequence of calls, as long as the counter
    does not wrap during that sequence. *)
Theorem destroyed_id_stays_unregistered
    (k : ResourceKind) (calls : list ScriptCall) (st : RTState) (id : Z) :
  0 <= next_id k st ->
  next_id k st + Z.of_nat (length calls) <= 4294967296 ->
  id < next_id k st ->
  id ∉ registered k st ->
  id ∉ registered k (run calls st).2.
Proof.
  intros H0 Hbound Hid Hnot Hin.
  assert (Hrange : 0 <= next_id k st < 4294967296).
  { split; [exact H0|]. destruct calls; cbn in Hbound; [|lia].
    cbn in Hin. contradiction. }
  destruct (run_allocated k calls st Hrange) as (Hids & _ & Hsub).
  pose proof (allocated_ids_length k calls (run calls st).1) as Hle.
  set (ids := allocated_ids k calls (run calls st).1) in *.
  apply Hsub in Hin. apply elem_of_union in Hin as [Hin | Hin]; [contradiction|].
  apply elem_of_list_to_set in Hin. rewrite Hids in Hin.
  apply list_elem_of_fmap in Hin as (j & -> & Hj).
  apply elem_of_seq in Hj.
  rewrite wrap32_small in Hid by lia. lia.
Qed.

(** *** Marshaled instances *)

(** X17. Every instance descriptor passed to the backend by [createTLAS]
    or [updateTLAS] holds the registered handle of the BLAS it names and
    a transform of exactly 16 floats; a transform buffer of 16 floats or
    more is copied float by float, and what lies beyond the 16th float is
    ignored. *)
Theorem marshaled_instance_shape
    (tlasObj arr : JSValueHandle) (rest : list JSValueHandle) (st : RTState)
    (insts : list RTTLASInstance) (ret h : RTTLASHandle) :
  backend_calls (js_createTLAS (arr :: rest) st).2
    = CallCreateTLAS insts ret :: backend_calls st \/
  backend_calls (js_updateTLAS (tlasObj :: arr :: rest) st).2
    = CallUpdateTLAS h insts :: backend_calls st ->
  forall (k : nat) inst, insts !! k = Some inst ->
    let instObj := getPropertyIndex arr (wrap32 (Z.of_nat k)) in
    g_blases st !! getBLASId (getProperty instObj "blas") = Some (blas inst) /\
    length (transform inst) = 16%nat /\
    forall data,
      getArrayBufferData (getProperty instObj "transform") = Some data ->
      16 <= Z.of_nat (length data) / 4 ->
      forall j : nat, (j < 16)%nat -> transform inst !! j = Some (load_f32 data j).
Proof.
  intros Hcall k inst Hk instObj.
  assert (Hm : marshalInstance (g_blases st) instObj = Some inst).
  { destruct Hcall as [Hc | Hu].
    - exact (createTLAS_passes_marshaled _ _ _ _ _ Hc k inst Hk).
    - exact (updateTLAS_passes_marshaled _ _ _ _ _ _ Hu k inst Hk). }
  unfold marshalInstance, extractFloat32Array in Hm.
  destruct (g_blases st !! getBLASId (getProperty instObj "blas")) as [it|]; [|discriminate].
  destruct (getArrayBufferData (getProperty instObj "transform")) as [data|].
  - destruct (Z.of_nat (length data) =? 0) eqn:Hz.
    + injection Hm as <-. cbn [blas transform]. split; [reflexivity|].
      split; [reflexivity|]. intros d Hd Hlen. injection Hd as <-.
      apply Z.eqb_eq in Hz. rewrite Hz in Hlen. change (0 / 4) with 0 in Hlen. lia.
    + destruct (16 <=? Z.of_nat (length data) / 4) eqn:Hle;
        injection Hm as <-; cbn [blas transform].
      * split; [reflexivity|]. split; [reflexivity|].
        intros d Hd _ j Hj. injection Hd as <-.
        unfold memcpy_transform.
        change (map (load_f32 data) (seq 0 16)) with (load_f32 data <$> seq 0 16).
        rewrite list_lookup_fmap, lookup_seq_lt by exact Hj. reflexivity.
      * split; [reflexivity|]. split; [reflexivity|].
        intros d Hd Hlen. injection Hd as <-. apply Z.leb_gt in Hle. lia.
  - injection Hm as <-. cbn [blas transform]. split; [reflexivity|].
    split; [reflexivity|]. intros d Hd. discriminate Hd.
Qed.

(** *** Teardown *)

Lemma fold_destroy {H : Type} (mk : H -> BackendCall) (f : H -> Backend -> Backend)
    (l : list (Z * H)) (st : RTState) :
  let st' := foldl (fun s kv => backend_destroy (mk kv.2) (f kv.2) s) st l in
  g_geometries st' = g_geometries st /\ g_blases st' = g_blases st /\
  g_tlases st' = g_tlases st /\
  (g_rtBackend st = None -> st' = st) /\
  (is_Some (g_rtBackend st) ->
   is_Some (g_rtBackend st') /\
   backend_calls st' = reverse (mk <$> l.*2) ++ backend_calls st).
Proof.
  revert st. induction l as [|[id h] l IH]; intros st; cbn [foldl].
  - cbn. do 3 (split; [reflexivity|]). split; [reflexivity|].
    intros Hs. split; [exact Hs | reflexivity].
  - cbn [snd]. destruct (g_rtBackend st) as [be|] eqn:Hbe.
    + assert (Hstep : backend_destroy (mk h) (f h) st = log_call (mk h) (f h be) st)
        by (unfold backend_destroy; rewrite Hbe; reflexivity).
      rewrite Hstep.
      destruct (IH (log_call (mk h) (f h be) st)) as (Hg & Hb & Ht & _ & Hsome).
      destruct Hsome as [Hs Hlog]; [cbn; eauto|].
      split; [exact Hg|]. split; [exact Hb|]. split; [exact Ht|].
      split; [intros Hf; discriminate Hf|].
      intros _. split; [exact Hs|].
      rewrite Hlog. cbn [fmap list_fmap snd backend_calls log_call].
      rewrite reverse_cons, <- app_assoc. reflexivity.
    + assert (Hstep : backend_destroy (mk h) (f h) st = st)
        by (unfold backend_destroy; rewrite Hbe; reflexivity).
      rewrite Hstep.
      destruct (IH st) as (Hg & Hb & Ht & Hnone & _).
      split; [exact Hg|]. split; [exact Hb|]. split; [exact Ht|].
      split; [intros _; apply Hnone, Hbe|].
      intros [x Hx]. discriminate Hx.
Qed.

(** X18. [cleanupRTBindings] ends in a clean slate without a backend:
    tables empty, counters at 1. When a backend is installed it is asked
    to destroy every registered handle exactly once, the TLASes first,
    then the BLASes, then the geometries (the log is most recent call
    first); without a backend no call is made. *)
Theorem cleanup_destroys_everything (st : RTState) :
  let st' := cleanupRTBindings st in
  g_rtBackend st' = None /\ clean_slate st' /\
  backend_calls st'
    = match g_rtBackend st with
      | None => backend_calls st
      | Some _ =>
          reverse (CallDestroyGeometry <$> (map_to_list (g_geometries st)).*2)
          ++ reverse (CallDestroyBLAS <$> (map_to_list (g_blases st)).*2)
          ++ reverse (CallDestroyTLAS <$> (map_to_list (g_tlases st)).*2)
          ++ backend_calls st
      end /\
  (is_Some (g_rtBackend st) ->
   length (backend_calls st')
   = (size (g_geometries st) + size (g_blases st) + size (g_tlases st)
      + length (backend_calls st))%nat).
Proof.
  cbn zeta.
  assert (Hlog : backend_calls (cleanupRTBindings st)
    = match g_rtBackend st with
      | None => backend_calls st
      | Some _ =>
          reverse (CallDestroyGeometry <$> (map_to_list (g_geometries st)).*2)
          ++ reverse (CallDestroyBLAS <$> (map_to_list (g_blases st)).*2)
          ++ reverse (CallDestroyTLAS <$> (map_to_list (g_tlases st)).*2)
          ++ backend_calls st
      end).
  { unfold cleanupRTBindings. cbn [backend_calls].
    pose proof (fold_destroy CallDestroyTLAS (fun h be => destroyTLAS be h)
                  (map_to_list (g_tlases st)) st) as H1.
    cbn zeta in H1. cbn beta in H1.
    set (s1 := foldl _ st (map_to_list (g_tlases st))) in *.
    destruct H1 as (Hg1 & Hb1 & Ht1 & Hn1 & Hs1).
    pose proof (fold_destroy CallDestroyBLAS (fun h be => destroyBLAS be h)
                  (map_to_list (g_blases s1)) s1) as H2.
    cbn zeta in H2. cbn beta in H2.
    set (s2 := foldl _ s1 (map_to_list (g_blases s1))) in *.
    destruct H2 as (Hg2 & Hb2 & Ht2 & Hn2 & Hs2).
    pose proof (fold_destroy CallDestroyGeometry (fun h be => destroyGeometry be h)
                  (map_to_list (g_geometries s2)) s2) as H3.
    cbn zeta in H3. cbn beta in H3.
    set (s3 := foldl _ s2 (map_to_list (g_geometries s2))) in *.
    destruct H3 as (Hg3 & Hb3 & Ht3 & Hn3 & Hs3).
    destruct (g_rtBackend st) as [be|] eqn:Hbe.
    - destruct Hs1 as [Hb1' Hl1]; [eauto|].
      destruct (Hs2 Hb1') as [Hb2' Hl2].
      destruct (Hs3 Hb2') as [_ Hl3].
      rewrite Hl3, Hl2, Hl1, Hg2, Hg1, Hb1. reflexivity.
    - rewrite (Hn1 eq_refl) in *. rewrite (Hn2 Hbe) in *. rewrite (Hn3 Hbe). reflexivity. }
  split; [reflexivity|]. split; [apply cleanup_resets|]. split; [exact Hlog|].
  intros [be Hbe]. rewrite Hlog, Hbe.
  rewrite !length_app, !length_reverse, !length_fmap, !length_map_to_list. lia.
Qed.

Lemma inert_invoke (c : ScriptCall) (st : RTState) :
  (g_rtBackend st = None \/ exists be, g_rtBackend st = Some be /\ isSupported be = false) ->
  g_geometries st = ∅ -> g_blases st = ∅ -> g_tlases st = ∅ ->
  (invoke c st).2 = st /\ forall k, allocated k c (invoke c st).1 = None.
Proof.
  intros Hun Hg Hb Ht.
  assert (Hgate : forall (A : Type) (x : A) (f : Backend -> A),
            (forall be, isSupported be = false -> f be = x) ->
            match g_rtBackend st with Some be => f be | None => x end = x).
  { intros A x f Hf. destruct Hun as [-> | (be & -> & Hs)]; [reflexivity | apply Hf, Hs]. }
  destruct c as [args|args|args|args|args|args|args|args|args|args]; cbn [invoke].
  - unfold js_isSupported. split; [destruct (g_rtBackend st); reflexivity|].
    intros k. destruct (g_rtBackend st); destruct k; reflexivity.
  - unfold js_getBackend. split; [destruct (g_rtBackend st); reflexivity|].
    intros k. destruct (g_rtBackend st); destruct k; reflexivity.
  - unfold js_createGeometry.
    rewrite (Hgate _ (newNull, st)) by (intros be ->; reflexivity).
    split; [reflexivity|]. intros k; destruct k; reflexivity.
  - unfold js_createBLAS.
    rewrite (Hgate _ (newNull, st)) by (intros be ->; reflexivity).
    split; [reflexivity|]. intros k; destruct k; reflexivity.
  - unfold js_createTLAS.
    rewrite (Hgate _ (newNull, st)) by (intros be ->; reflexivity).
    split; [reflexivity|]. intros k; destruct k; reflexivity.
  - unfold js_updateTLAS.
    rewrite (Hgate _ (newUndefined, st)) by (intros be ->; reflexivity).
    split; [reflexivity|]. intros k; destruct k; reflexivity.
  - unfold js_traceRays.
    rewrite (Hgate _ (newUndefined, st)) by (intros be ->; reflexivity).
    split; [reflexivity|]. intros k; destruct k; reflexivity.
  - unfold js_destroyBLAS. destruct args as [|obj rest];
      [|rewrite Hb, lookup_empty]; (split; [reflexivity|]); intros k; destruct k; reflexivity.
  - unfold js_destroyTLAS. destruct args as [|obj rest];
      [|rewrite Ht, lookup_empty]; (split; [reflexivity|]); intros k; destruct k; reflexivity.
  - unfold js_destroyGeometry. destruct args as [|obj rest];
      [|rewrite Hg, lookup_empty]; (split; [reflexivity|]); intros k; destruct k; reflexivity.
Qed.

Lemma inert_run (calls : list ScriptCall) (st : RTState) :
  (g_rtBackend st = None \/ exists be, g_rtBackend st = Some be /\ isSupported be = false) ->
  g_geometries st = ∅ -> g_blases st = ∅ -> g_tlases st = ∅ ->
  (run calls st).2 = st /\ forall k, allocated_ids k calls (run calls st).1 = [].
Proof.
  intros Hun Hg Hb Ht. induction calls as [|c calls [IH1 IH2]]; [split; reflexivity|].
  rewrite run_cons. cbn [fst snd allocated_ids].
  destruct (inert_invoke c st Hun Hg Hb Ht) as [Hst Hout].
  rewrite Hst. split; [exact IH1|].
  intros k. rewrite Hout. apply IH2.
Qed.

(** X19. After [cleanupRTBindings] the bindings are inert: whatever the
    script calls next, the state stays the clean slate that cleanup left
    and no id is allocated, until the bindings are initialised again. *)
Theorem calls_after_cleanup_are_inert (calls : list ScriptCall) (st : RTState) :
  (run calls (cleanupRTBindings st)).2 = cleanupRTBindings st /\
  forall k, allocated_ids k calls (run calls (cleanupRTBindings st)).1 = [].
Proof.
  apply inert_run; try reflexivity. left. reflexivity.
Qed.

(** *** Exceptions *)

(** X23. A failed reservation throws before anything is built: on a
    usable backend, with an array argument, when the vector cannot be
    reserved for the reported length, [createBLAS] and [createTLAS], and
    [updateTLAS] on a registered TLAS, let the exception leave the binding
    with the state unchanged; the backend is not called. *)
Theorem failed_reservation_throws
    (tlasObj arr : JSValueHandle) (rest : list JSValueHandle) (st : RTState)
    (be : Backend) (h : RTTLASHandle) :
  g_rtBackend st = Some be -> isSupported be = true -> isArray arr = true ->
  (vector_reserve ElemGeometryHandle (reported_length arr) = false ->
   js_createBLAS (arr :: rest) st = (exception_thrown, st)) /\
  (vector_reserve ElemTLASInstance (reported_length arr) = false ->
   js_createTLAS (arr :: rest) st = (exception_thrown, st) /\
   (g_tlases st !! getTLASId tlasObj = Some h ->
    js_updateTLAS (tlasObj :: arr :: rest) st = (exception_thrown, st))).
Proof.
  intros Hbe Hsup Harr. unfold reported_length.
  split; [|split].
  - intros Hres. unfold js_createBLAS. rewrite Hbe, Hsup, Harr. cbn [negb].
    destruct (_ =? 0) eqn:Hz.
    + apply Z.eqb_eq in Hz. rewrite Hz, vector_reserve_zero in Hres. discriminate Hres.
    + rewrite Hres. reflexivity.
  - unfold js_createTLAS. rewrite Hbe, Hsup, Harr. cbn [negb].
    destruct (_ =? 0) eqn:Hz.
    + apply Z.eqb_eq in Hz. rewrite Hz, vector_reserve_zero in H. discriminate H.
    + rewrite H. reflexivity.
  - intros Htlas. unfold js_updateTLAS. rewrite Hbe, Hsup, Htlas, Harr. cbn [negb].
    rewrite H. reflexivity.
Qed.


End Coverage.

Section Shipped.

Context {engine : JSEngine} {heap : Heap}.

(** X20. The backend the factory installs is the stub, whose
    [isSupported()] is false: from initialisation on, no sequence of
    calls changes the state, registers a resource or allocates an id. *)
Theorem stub_backend_is_inert (calls : list ScriptCall) :
  (run (backend := StubRTBackend) calls stub_started).2 = stub_started /\
  forall k, allocated_ids k calls (run (backend := StubRTBackend) calls stub_started).1 = [].
Proof.
  apply (inert_run (backend := StubRTBackend)); try reflexivity.
  right. exists tt. split; reflexivity.
Qed.

End Shipped.

(** ** Backend names *)

(** X21. [getBackendName] gives each backend type its own name (it is
    injective), and the stub backend reports the name of its type,
    "none", which is also what [getBackend()] answers when no backend is
    installed. *)
Theorem backend_names_identify_backends :
  (forall t1 t2, getBackendName t1 = getBackendName t2 -> t1 = t2) /\
  getBackend (IRTBackend := StubRTBackend) tt
    = getBackendName (getBackendType (IRTBackend := StubRTBackend) tt) /\
  (forall (backend : IRTBackend) (engine : JSEngine)
          (args : list JSValueHandle) (st : RTState),
     g_rtBackend st = None ->
     js_getBackend args st = (newString (getBackendName BackendNone), st)).
Proof.
  split; [|split].
  - intros [] []; cbn; intros H; try reflexivity; discriminate H.
  - reflexivity.
  - intros backend engine args st Hnone. unfold js_getBackend. rewrite Hnone. reflexivity.
Qed.

(** ** The sphere of the example script *)



(** ** Concrete runs for the further properties *)

Section MoreRuns.

#[local] Existing Instance ReferenceEngine.
#[local] Existing Instance CountingBackend.
#[local] Existing Instance BoundedHeap.

(** Witness of X1: the same geometry named twice. *)
Lemma createBLAS_forwards_registered_handles_witness :
  let arr := SArray [handle_object "geometry" 1; handle_object "geometry" 1] in
  exists handles,
    length handles = 2%nat /\
    (forall (k : nat) h, handles !! k = Some h ->
       g_geometries one_geometry
         !! getGeometryId (getPropertyIndex arr (wrap32 (Z.of_nat k))) = Some h) /\
    backend_calls (js_createBLAS [arr] one_geometry).2
      = CallCreateBLAS handles (createBLAS 1%N handles).1 :: backend_calls one_geometry.
Proof.
  intros arr.
  apply (createBLAS_forwards_registered_handles (engine := ReferenceEngine)
           arr [] one_geometry 1%N); try reflexivity.
  intros i Hi. change (reported_length (engine := ReferenceEngine) arr) with 2 in Hi.
  assert (Hcase : i = 0 \/ i = 1) by lia.
  destruct Hcase as [-> | ->]; eexists; reflexivity.
Defined.

(** Witness of X2. *)
Lemma createTLAS_forwards_resolved_instances_witness :
  let arr := SArray [instance_short_transform] in
  exists insts,
    length insts = 1%nat /\
    (forall (k : nat) inst, insts !! k = Some inst ->
       g_blases scene
         !! getBLASId (getProperty (getPropertyIndex arr (wrap32 (Z.of_nat k))) "blas")
         = Some (blas inst)) /\
    backend_calls (js_createTLAS [arr] scene).2
      = CallCreateTLAS insts (createTLAS 2%N insts).1 :: backend_calls scene.
Proof.
  intros arr.
  apply (createTLAS_forwards_resolved_instances (engine := ReferenceEngine)
           arr [] scene 2%N); try reflexivity.
  intros i Hi. change (reported_length (engine := ReferenceEngine) arr) with 1 in Hi.
  assert (i = 0) as -> by lia. eexists; reflexivity.
Defined.

(** Witness of X3: an empty update of TLAS 1. *)
Lemma updateTLAS_forwards_any_count_witness :
  js_updateTLAS [handle_object "tlas" 1; SArray []] scenario_state
    = (newUndefined,
       log_call (CallUpdateTLAS {| tlas_handle := 3; tlas_id := 1 |} [])
         (updateTLAS 3%N {| tlas_handle := 3; tlas_id := 1 |} []) scenario_state).
Proof.
  destruct (updateTLAS_forwards_any_count (engine := ReferenceEngine) (heap := BoundedHeap)
              (handle_object "tlas" 1) (SArray []) [] scenario_state 3%N
              {| tlas_handle := 3; tlas_id := 1 |} eq_refl eq_refl eq_refl eq_refl
              (or_introl eq_refl))
    as (insts & Hlen & Heq).
  - intros i Hi. change (reported_length (engine := ReferenceEngine) (SArray [])) with 0 in Hi.
    lia.
  - destruct insts; [exact Heq | discriminate Hlen].
Defined.


(** Witness of X5: an empty array. *)
Lemma create_structure_rejects_empty_witness :
  js_createBLAS [SArray []] one_geometry = (newNull, one_geometry) /\
  js_createTLAS [SArray []] one_geometry = (newNull, one_geometry).
Proof.
  apply (proj1 (create_structure_rejects_empty (engine := ReferenceEngine)
                  (SArray []) [] one_geometry)).
  left. reflexivity.
Defined.

(** Witness of X7: a triangle without indices. *)
Lemma createGeometry_descriptor_witness :
  exists desc,
    backend_calls (js_createGeometry [geometry_options] started).2
      = CallCreateGeometry desc (createGeometry 0%N desc).1 :: backend_calls started /\
    vertices desc = Some (repeat Byte.x00 36) /\
    vertexCount desc = 3 /\ vertexStride desc = 12 /\ vertexOffset desc = 0 /\
    indices desc = None /\ indexCount desc = 0.
Proof.
  destruct (createGeometry_descriptor (engine := ReferenceEngine)
              geometry_options [] started 0%N (repeat Byte.x00 36)
              eq_refl eq_refl eq_refl eq_refl)
    as (desc & Hlog & Hv & Hc & Hs & Ho & Hi & _).
  - vm_compute. discriminate.
  - exists desc. destruct (Hi eq_refl) as [Hi1 Hi2].
    repeat split; assumption.
Defined.

(** Witness of X8: three bytes. *)
Lemma createGeometry_rejects_sub_float_buffer_witness :
  js_createGeometry [SObject [("vertices"%string, SBuffer (repeat Byte.x00 3))]] started
    = (newNull, started).
Proof.
  apply (createGeometry_rejects_sub_float_buffer (engine := ReferenceEngine)
           (SObject [("vertices"%string, SBuffer (repeat Byte.x00 3))]) [] started
           (repeat Byte.x00 3)); reflexivity.
Defined.

(** Witness of X10. *)
Lemma create_then_destroy_geometry_witness :
  let st1 := (js_createGeometry [geometry_options] started).2 in
  let st2 := (js_destroyGeometry [handle_object "geometry" 1] st1).2 in
  g_geometries st2 = g_geometries started /\
  exists desc ret,
    geometry_handle ret <> 0 /\
    backend_calls st2
      = CallDestroyGeometry {| geometry_handle := geometry_handle ret; geometry_id := 1 |}
        :: CallCreateGeometry desc ret :: backend_calls started.
Proof.
  apply (create_then_destroy_geometry (engine := ReferenceEngine)
           [geometry_options] [] (handle_object "geometry" 1) started 1); reflexivity.
Defined.

(** Witness of X11: a BLAS wrapper passed to [destroyGeometry]. *)
Lemma handle_resolution_ignores_type_witness :
  js_destroyGeometry [handle_object "blas" 1] scene
    = js_destroyGeometry [handle_object "geometry" 1] scene /\
  g_geometries (js_destroyGeometry [handle_object "blas" 1] scene).2 = ∅.
Proof.
  split; [|reflexivity].
  apply (handle_resolution_ignores_type (engine := ReferenceEngine)
           (handle_object "blas" 1) (handle_object "geometry" 1) [] scene).
  reflexivity.
Defined.

(** Witness of X12: the stub backend. *)
Lemma isSupported_false_means_inert_witness :
  (js_isSupported (backend := StubRTBackend) [] stub_started).1 = newBoolean false /\
  js_createGeometry (backend := StubRTBackend) [geometry_options] stub_started
    = (newNull, stub_started) /\
  js_traceRays (backend := StubRTBackend) [geometry_options] stub_started
    = (newUndefined, stub_started).
Proof.
  split; [reflexivity|].
  destruct (proj2 (isSupported_false_means_inert (engine := ReferenceEngine)
                     (backend := StubRTBackend) [] [geometry_options] stub_started)
              eq_refl)
    as (Hg & _ & _ & _ & Ht).
  split; assumption.
Defined.

(** Witness of X13: a 640x480 trace against TLAS 1, without uniforms. *)
Lemma traceRays_dispatch_witness :
  let options := SObject [("tlas"%string, handle_object "tlas" 1);
                          ("width"%string, SNumber 640);
                          ("height"%string, SNumber 480)] in
  exists opts,
    backend_calls (js_traceRays [options] scenario_state).2
      = CallTraceRays opts :: backend_calls scenario_state /\
    tlas opts = {| tlas_handle := 3; tlas_id := 1 |} /\
    width opts = 640 /\ height opts = 480 /\
    uniforms opts = None /\ uniformsSize opts = 0.
Proof.
  intros options.
  destruct (traceRays_dispatch (engine := ReferenceEngine) options [] scenario_state)
    as (_ & _ & _ & _ & _ & H).
  change (exists opts,
    backend_calls (js_traceRays [options] scenario_state).2
      = CallTraceRays opts :: backend_calls scenario_state /\
    tlas opts = {| tlas_handle := 3; tlas_id := 1 |} /\
    width opts = 640 /\ height opts = 480 /\
    (true = true -> uniforms opts = None /\ uniformsSize opts = 0)) in H.
  destruct H as (opts & Hlog & Ht & Hw & Hh & Hu).
  exists opts. destruct (Hu eq_refl) as [Hu1 Hu2]. auto 10.
Defined.

(** Witness of X14. *)
Lemma registered_handles_carry_their_id_witness : ids_match_keys scenario_state.
Proof.
  apply (registered_handles_carry_their_id (engine := ReferenceEngine)
           scenario_calls started).
  apply initialize_clean.
Defined.

(** Witness of X15. *)
Lemma registered_ids_were_allocated_witness :
  registered BLAS scenario_state
    ⊆ list_to_set (allocated_ids BLAS scenario_calls (run scenario_calls started).1).
Proof.
  apply (registered_ids_were_allocated (engine := ReferenceEngine)
           BLAS scenario_calls started).
  apply initialize_clean.
Defined.

(** Witness of X16: geometry 1, destroyed in the scenario, stays
    unregistered through two more creations. *)
Lemma destroyed_id_stays_unregistered_witness :
  next_id Geometry scenario_state = 2 /\
  (1 ∉ registered Geometry scenario_state) /\
  (1 ∉ registered Geometry (run [create_triangle; create_triangle] scenario_state).2).
Proof.
  assert (Hnot : 1 ∉ registered Geometry scenario_state)
    by (apply not_elem_of_dom; reflexivity).
  split; [reflexivity|]. split; [exact Hnot|].
  apply (destroyed_id_stays_unregistered (engine := ReferenceEngine)
           Geometry [create_triangle; create_triangle] scenario_state 1).
  - vm_compute. discriminate.
  - vm_compute. discriminate.
  - reflexivity.
  - exact Hnot.
Defined.

(** Witness of X17: a transform of 17 floats. *)
Lemma marshaled_instance_shape_witness :
  exists inst ret,
    backend_calls (js_createTLAS [SArray [instance_long_transform]] scene).2
      = CallCreateTLAS [inst] ret :: backend_calls scene /\
    blas inst = {| blas_handle := 2; blas_id := 1 |} /\
    length (transform inst) = 16%nat /\
    forall j : nat, (j < 16)%nat ->
      transform inst !! j = Some (load_f32 (repeat Byte.x01 68) j).
Proof.
  eexists. eexists. split; [reflexivity|].
  destruct (marshaled_instance_shape (engine := ReferenceEngine) (heap := BoundedHeap) SUndefined
              (SArray [instance_long_transform]) [] scene _ _
              {| tlas_handle := 0; tlas_id := 0 |} (or_introl eq_refl) 0%nat _ eq_refl)
    as (Hb & Hlen & Hcopy).
  split; [reflexivity|]. split; [exact Hlen|].
  apply (Hcopy (repeat Byte.x01 68) eq_refl).
  vm_compute. discriminate.
Defined.

(** Witness of X18: cleanup at the end of the scenario destroys the two
    live resources. *)
Lemma cleanup_destroys_everything_witness :
  length (backend_calls (cleanupRTBindings scenario_state))
    = (0 + 1 + 1 + length (backend_calls scenario_state))%nat /\
  clean_slate (cleanupRTBindings scenario_state).
Proof.
  destruct (cleanup_destroys_everything scenario_state)
    as (_ & Hclean & _ & Hlen).
  split; [|exact Hclean].
  apply Hlen. eexists. reflexivity.
Defined.

(** Witness of X23: [new Array(4294967295)] given to the three bindings
    at the end of the scenario. *)
Lemma failed_reservation_throws_witness :
  js_createBLAS [SHoles 4294967295] scenario_state = (exception_thrown, scenario_state) /\
  js_createTLAS [SHoles 4294967295] scenario_state = (exception_thrown, scenario_state) /\
  js_updateTLAS [handle_object "tlas" 1; SHoles 4294967295] scenario_state
    = (exception_thrown, scenario_state).
Proof.
  destruct (failed_reservation_throws (engine := ReferenceEngine) (heap := BoundedHeap)
              (handle_object "tlas" 1) (SHoles 4294967295) [] scenario_state 3%N
              {| tlas_handle := 3; tlas_id := 1 |} eq_refl eq_refl eq_refl)
    as (Hblas & Htlas).
  destruct (Htlas eq_refl) as (Hcreate & Hupdate).
  split; [exact (Hblas eq_refl)|]. split; [exact Hcreate | exact (Hupdate eq_refl)].
Defined.



End MoreRuns.
